(** * duckduckgo-answers: a shallow embedding of [main.go]

    The program is a command-line client of the DuckDuckGo Instant Answer
    API.  Go strings are byte sequences, so they are modelled by [string]
    (a list of 8-bit [ascii]); Go [int] fields are modelled by [Z].

    Layout: the embedding (models of the Go library functions that
    [main.go] calls, then the functions of [main.go] in source order), the
    vocabulary of the statements, then the lemmas and theorems. *)

From Stdlib Require Import ZArith NArith List Ascii Bool Lia DecimalString.
From Stdlib Require String.
From stdpp Require Import base option list gmap strings.
Import ListNotations.

Local Open Scope Z_scope.
Local Open Scope stdpp_scope.

(** stdpp keeps [String.append] folded; the proofs below compute with it. *)
#[local] Arguments String.append : simpl nomatch.

(* ===================================================================== *)
(** ** Bytes and a few string helpers *)

Definition b2z (c : ascii) : Z := Z.of_N (N_of_ascii c).
Definition z2b (z : Z) : ascii := ascii_of_N (Z.to_N z).

(** [lo <= c && c <= hi] on bytes. *)
Definition between (lo hi c : ascii) : bool :=
  (b2z lo <=? b2z c) && (b2z c <=? b2z hi).

Fixpoint mem (c : ascii) (s : string) : bool :=
  match s with
  | EmptyString => false
  | String d t => Ascii.eqb c d || mem c t
  end.

Definition LF : ascii := "010".
Definition CR : ascii := "013".
Definition TAB : ascii := "009".
Definition ESC : ascii := "027".
Definition DQUOTE : ascii := "034".
Definition BACKSLASH : ascii := "092".
Definition nl : string := String LF "".
Definition tab : string := String TAB "".

(* ===================================================================== *)
(** ** unicode/utf8, unicode and strings: what [strings.TrimSpace] runs *)

(** [s[i]], for an index in range. *)
Definition byteAt (s : string) (i : Z) : ascii :=
  match String.get (Z.to_nat i) s with
  | Some c => c
  | None => "000"%char
  end.

(** [s[i:j]] *)
Definition slice (s : string) (i j : Z) : string :=
  String.substring (Z.to_nat i) (Z.to_nat (j - i)) s.

(** [len(s)] *)
Definition len (s : string) : Z := Z.of_nat (String.length s).

Module utf8.

Definition RuneError : Z := 0xFFFD.
Definition RuneSelf : Z := 0x80.
Definition UTFMax : Z := 4.

Definition maskx : Z := 0x3F.
Definition mask2 : Z := 0x1F.
Definition mask3 : Z := 0x0F.
Definition mask4 : Z := 0x07.
Definition locb : Z := 0x80.
Definition hicb : Z := 0xBF.

(** The table [first] with [acceptRanges], for a leading byte that is not
    ASCII: the length of the sequence and the range the second byte must
    lie in; [None] is the table's invalid entry. *)
Definition first (s0 : Z) : option (Z * Z * Z) :=
  if s0 <? 0xC2 then None
  else if s0 <=? 0xDF then Some (2, locb, hicb)
  else if s0 =? 0xE0 then Some (3, 0xA0, hicb)
  else if s0 <=? 0xEC then Some (3, locb, hicb)
  else if s0 =? 0xED then Some (3, locb, 0x9F)
  else if s0 <=? 0xEF then Some (3, locb, hicb)
  else if s0 =? 0xF0 then Some (4, 0x90, hicb)
  else if s0 <=? 0xF3 then Some (4, locb, hicb)
  else if s0 =? 0xF4 then Some (4, locb, 0x8F)
  else None.

Definition outside (lo hi b : Z) : bool := (b <? lo) || (hi <? b).

(** [utf8.DecodeRuneInString]: the first rune of [s] and its width; an
    encoding that is not valid gives [(RuneError, 1)]. *)
Definition DecodeRuneInString (s : string) : Z * Z :=
  match s with
  | EmptyString => (RuneError, 0)
  | String c0 t0 =>
      let s0 := b2z c0 in
      if s0 <? RuneSelf then (s0, 1)
      else
        match first s0 with
        | None => (RuneError, 1)
        | Some (sz, lo, hi) =>
            if len s <? sz then (RuneError, 1)
            else
              match t0 with
              | EmptyString => (RuneError, 1)
              | String c1 t1 =>
                  let s1 := b2z c1 in
                  if outside lo hi s1 then (RuneError, 1)
                  else if sz <=? 2 then
                    (Z.lor (Z.shiftl (Z.land s0 mask2) 6) (Z.land s1 maskx), 2)
                  else
                    match t1 with
                    | EmptyString => (RuneError, 1)
                    | String c2 t2 =>
                        let s2 := b2z c2 in
                        if outside locb hicb s2 then (RuneError, 1)
                        else if sz <=? 3 then
                          (Z.lor (Z.lor (Z.shiftl (Z.land s0 mask3) 12)
                                        (Z.shiftl (Z.land s1 maskx) 6))
                                 (Z.land s2 maskx), 3)
                        else
                          match t2 with
                          | EmptyString => (RuneError, 1)
                          | String c3 _ =>
                              let s3 := b2z c3 in
                              if outside locb hicb s3 then (RuneError, 1)
                              else
                                (Z.lor (Z.lor (Z.lor
                                   (Z.shiftl (Z.land s0 mask4) 18)
                                   (Z.shiftl (Z.land s1 maskx) 12))
                                   (Z.shiftl (Z.land s2 maskx) 6))
                                   (Z.land s3 maskx), 4)
                          end
                    end
              end
        end
  end.

Definition RuneStart (b : ascii) : bool :=
  negb (Z.land (b2z b) 0xC0 =? 0x80).

(** The loop [for start--; start >= lim; start-- { if RuneStart(s[start])
    { break } }] of [DecodeLastRuneInString]; it runs at most [UTFMax]
    times. *)
Fixpoint backToStart (n : nat) (s : string) (lim start : Z) : Z :=
  match n with
  | O => start
  | S k =>
      if start <? lim then start
      else if RuneStart (byteAt s start) then start
      else backToStart k s lim (start - 1)
  end.

(** [utf8.DecodeLastRuneInString]: the last rune of [s] and its width. *)
Definition DecodeLastRuneInString (s : string) : Z * Z :=
  let end_ := len s in
  if end_ =? 0 then (RuneError, 0)
  else
    let start := end_ - 1 in
    let r := b2z (byteAt s start) in
    if r <? RuneSelf then (r, 1)
    else
      let lim := Z.max 0 (end_ - UTFMax) in
      let start := backToStart (Z.to_nat UTFMax) s lim (start - 1) in
      let start := Z.max 0 start in
      let '(r, size) := DecodeRuneInString (slice s start end_) in
      if negb (start + size =? end_) then (RuneError, 1) else (r, size).

End utf8.

Module unicode.

(** [unicode.IsSpace]: the Latin-1 cases, then the [White_Space] table. *)
Definition IsSpace (r : Z) : bool :=
  if r <=? 0xFF then
    (r =? 9) || (r =? 10) || (r =? 11) || (r =? 12) || (r =? 13)
    || (r =? 32) || (r =? 0x85) || (r =? 0xA0)
  else
    (r =? 0x1680) || ((0x2000 <=? r) && (r <=? 0x200A))
    || ((0x2028 <=? r) && (r <=? 0x2029)) || (r =? 0x202F)
    || (r =? 0x205F) || (r =? 0x3000).

End unicode.

Module strings.

(** [strings.Cut s sep] for a one-byte separator: the text before the first
    [sep], and the text after it when there is one. *)
Fixpoint Cut (sep : ascii) (s : string) : string * option string :=
  match s with
  | EmptyString => (EmptyString, None)
  | String c t =>
      if Ascii.eqb c sep then (EmptyString, Some t)
      else let '(b, a) := Cut sep t in (String c b, a)
  end.

(** [strings.Split s sep] for a one-byte separator. *)
Fixpoint Split (sep : ascii) (s : string) : list string :=
  match s with
  | EmptyString => [EmptyString]
  | String c t =>
      if Ascii.eqb c sep then EmptyString :: Split sep t
      else match Split sep t with
           | x :: rest => String c x :: rest
           | [] => [String c EmptyString]
           end
  end.

(** [strings.Join elems sep]. *)
Fixpoint Join (elems : list string) (sep : string) : string :=
  match elems with
  | [] => ""
  | [x] => x
  | x :: rest => x +:+ sep +:+ Join rest sep
  end.

(** The table [asciiSpace]: tab, newline, vertical tab, form feed,
    carriage return and space. *)
Definition asciiSpace (c : ascii) : bool :=
  let b := b2z c in
  (b =? 9) || (b =? 10) || (b =? 11) || (b =? 12) || (b =? 13) || (b =? 32).

(** [indexFunc s f truth]: the index of the first rune [r] of [s] with
    [f r = truth], or [-1].  [i] is the index of [s] in the whole string;
    every step moves by at least one byte, so [length s] steps suffice. *)
Fixpoint indexFunc_from (n : nat) (s : string) (i : Z)
         (f : Z -> bool) (truth : bool) : Z :=
  match n with
  | O => -1
  | S k =>
      if len s =? 0 then -1
      else
        let '(r, size) := utf8.DecodeRuneInString s in
        if Bool.eqb (f r) truth then i
        else indexFunc_from k (slice s size (len s)) (i + size) f truth
  end.

Definition indexFunc (s : string) (f : Z -> bool) (truth : bool) : Z :=
  indexFunc_from (String.length s) s 0 f truth.

(** [lastIndexFunc s f truth]: the index of the last such rune, or [-1]. *)
Fixpoint lastIndexFunc_from (n : nat) (s : string) (i : Z)
         (f : Z -> bool) (truth : bool) : Z :=
  match n with
  | O => -1
  | S k =>
      if i >? 0 then
        let '(r, size) := utf8.DecodeLastRuneInString (slice s 0 i) in
        let i := i - size in
        if Bool.eqb (f r) truth then i
        else lastIndexFunc_from k s i f truth
      else -1
  end.

Definition lastIndexFunc (s : string) (f : Z -> bool) (truth : bool) : Z :=
  lastIndexFunc_from (String.length s) s (len s) f truth.

Definition TrimLeftFunc (s : string) (f : Z -> bool) : string :=
  let i := indexFunc s f false in
  if i =? -1 then "" else slice s i (len s).

Definition TrimRightFunc (s : string) (f : Z -> bool) : string :=
  let i := lastIndexFunc s f false in
  let i :=
    if (i >=? 0) && (b2z (byteAt s i) >=? utf8.RuneSelf) then
      let '(_, wid) := utf8.DecodeRuneInString (slice s i (len s)) in i + wid
    else i + 1 in
  slice s 0 i.

Definition TrimFunc (s : string) (f : Z -> bool) : string :=
  TrimRightFunc (TrimLeftFunc s f) f.

(** The second loop of [TrimSpace], on [s[start:]]: [stop] moves down over
    ASCII spaces; a byte that is not ASCII hands over to [TrimRightFunc]. *)
Fixpoint trimStop (n : nat) (s : string) (stop : Z) : string :=
  match n with
  | O => slice s 0 stop
  | S k =>
      if stop >? 0 then
        let c := byteAt s (stop - 1) in
        if b2z c >=? utf8.RuneSelf then
          TrimRightFunc (slice s 0 stop) unicode.IsSpace
        else if asciiSpace c then trimStop k s (stop - 1)
        else slice s 0 stop
      else slice s 0 stop
  end.

(** [strings.TrimSpace]: the first loop walks [start] up over ASCII
    spaces; a byte that is not ASCII hands the rest to [TrimFunc]. *)
Fixpoint TrimSpace (s : string) : string :=
  match s with
  | EmptyString => EmptyString
  | String c t =>
      if b2z c >=? utf8.RuneSelf then TrimFunc s unicode.IsSpace
      else if asciiSpace c then TrimSpace t
      else trimStop (String.length s) s (len s)
  end.

End strings.

(* ===================================================================== *)
(** ** net/url: query-component escaping *)

Module url.

(** The operand of an [EscapeError]: the offending escape sequence. *)
Inductive EscapeError := mkEscapeError (s : string).

(** [shouldEscape c encodeQueryComponent]: letters, digits and the marks
    [-_.~] stay; in this mode every other byte, the reserved characters
    included, is escaped. *)
Definition shouldEscape (c : ascii) : bool :=
  if between "a" "z" c || between "A" "Z" c || between "0" "9" c then false
  else if mem c "-_.~" then false
  else true.

Definition upperhex : string := "0123456789ABCDEF".

(** [upperhex[n]] *)
Definition hexdigit (n : Z) : ascii :=
  match String.get (Z.to_nat n) upperhex with
  | Some d => d
  | None => "0"
  end.

(** [escape s encodeQueryComponent]: a space becomes [+], a byte to be
    escaped becomes [%XX], any other byte is copied. *)
Fixpoint escape (s : string) : string :=
  match s with
  | EmptyString => EmptyString
  | String c t =>
      if Ascii.eqb c " " then String "+" (escape t)
      else if shouldEscape c then
        String "%" (String (hexdigit (Z.shiftr (b2z c) 4))
                   (String (hexdigit (Z.land (b2z c) 15)) (escape t)))
      else String c (escape t)
  end.

Definition QueryEscape (s : string) : string := escape s.

Definition ishex (c : ascii) : bool :=
  between "0" "9" c || between "a" "f" c || between "A" "F" c.

Definition unhex (c : ascii) : Z :=
  if between "0" "9" c then b2z c - b2z "0"
  else if between "a" "f" c then b2z c - b2z "a" + 10
  else if between "A" "F" c then b2z c - b2z "A" + 10
  else 0.

(** [unescape s encodeQueryComponent].  The library validates every [%]
    in a first pass and decodes in a second; the single pass below stops
    at the first malformed escape, which is the error the first pass
    reports (the escape cut to at most three bytes). *)
Fixpoint unescape (s : string) : string + EscapeError :=
  match s with
  | EmptyString => inl EmptyString
  | String c t =>
      if Ascii.eqb c "%" then
        match t with
        | String h (String l rest) =>
            if ishex h && ishex l then
              match unescape rest with
              | inl r =>
                  inl (String (z2b (Z.lor (Z.shiftl (unhex h) 4) (unhex l))) r)
              | inr e => inr e
              end
            else inr (mkEscapeError (String c (String h (String l ""))))
        | _ => inr (mkEscapeError s)
        end
      else
        match unescape t with
        | inl r => inl (String (if Ascii.eqb c "+" then " " else c) r)
        | inr e => inr e
        end
  end.

Definition QueryUnescape (s : string) : string + EscapeError := unescape s.

(** The raw query of a URL as [url.Parse] splits it: the fragment is cut
    off at the first [#], the query is what follows the first [?]. *)
Definition RawQuery (rawURL : string) : string :=
  let '(u, _) := strings.Cut "#" rawURL in
  match strings.Cut "?" u with
  | (_, Some q) => q
  | (_, None) => ""
  end.

(** The still escaped value of the first field of the raw query whose key
    is [key]. *)
Fixpoint rawValue (key : string) (fs : list string) : option string :=
  match fs with
  | [] => None
  | f :: rest =>
      match strings.Cut "=" f with
      | (k, v) =>
          if String.eqb k key then Some (default "" v)
          else rawValue key rest
      end
  end.

Definition rawParam (key rawURL : string) : option string :=
  rawValue key (strings.Split "&" (RawQuery rawURL)).

End url.

(* ===================================================================== *)
(** ** fmt: the verbs and printing functions the program uses *)

Module fmt.

(** An operand of a formatting call: the program passes strings and ints. *)
Inductive arg :=
| ArgS (s : string)
| ArgD (n : Z).

(** [%d] of an int: decimal digits, [-] first when negative. *)
Definition decimal (n : Z) : string := NilZero.string_of_int (Z.to_int n).

(** An operand under the default format [%v], as [Print] and [Println]
    write it. *)
Definition display (a : arg) : string :=
  match a with
  | ArgS s => s
  | ArgD n => decimal n
  end.

Definition typeName (a : arg) : string :=
  match a with
  | ArgS _ => "string"
  | ArgD _ => "int"
  end.

(** One verb applied to one operand.  [%s] takes a string, [%d] an int,
    [%v] either; any other pairing is written the way the library reports
    a verb that does not fit its operand, [%!verb(type=value)].  Flags,
    widths and the remaining verbs are not modelled: no format string of
    the program has them. *)
Definition verb (v : ascii) (a : arg) : string :=
  match a with
  | ArgS s =>
      if Ascii.eqb v "s" || Ascii.eqb v "v" then s
      else "%!" +:+ String v "(string=" +:+ s +:+ ")"
  | ArgD n =>
      if Ascii.eqb v "d" || Ascii.eqb v "v" then decimal n
      else "%!" +:+ String v "(int=" +:+ decimal n +:+ ")"
  end.

(** Operands left over when the format string ends. *)
Definition extra (args : list arg) : string :=
  match args with
  | [] => ""
  | _ =>
      "%!(EXTRA "
      +:+ strings.Join (map (fun a => typeName a +:+ "=" +:+ display a) args) ", "
      +:+ ")"
  end.

(** [fmt.Sprintf format args...] *)
Fixpoint Sprintf (format : string) (args : list arg) : string :=
  match format with
  | EmptyString => extra args
  | String c rest =>
      if Ascii.eqb c "%" then
        match rest with
        | EmptyString => "%!(NOVERB)"
        | String v rest' =>
            if Ascii.eqb v "%" then String "%" (Sprintf rest' args)
            else
              match args with
              | [] => "%!" +:+ String v "(MISSING)" +:+ Sprintf rest' []
              | a :: args' => verb v a +:+ Sprintf rest' args'
              end
        end
      else String c (Sprintf rest args)
  end.

(** [fmt.Sprint] of string operands: no space is added between operands
    when either is a string. *)
Definition Sprint (args : list string) : string := strings.Join args "".

(** [fmt.Sprintln]: a space between operands, a newline at the end. *)
Definition Sprintln (args : list string) : string := strings.Join args " " +:+ nl.

End fmt.

(* ===================================================================== *)
(** ** Errors, the world and the effects of the program *)

(** The [error] values the program can meet.  [Error] is the method
    [Error() string]; errors of the operating system, the network and the
    JSON decoder carry their message. *)
Inductive error :=
| EOF                                (* io.EOF *)
| ErrorString (msg : string)         (* errors.New, fmt.Errorf *)
| ErrTooLong                         (* bufio.ErrTooLong *)
| SysError (msg : string)            (* os, net, net/http *)
| JSONError (msg : string)           (* encoding/json *)
| RuntimeError (msg : string).       (* a run-time panic *)

Definition Error (e : error) : string :=
  match e with
  | EOF => "EOF"
  | ErrorString msg => msg
  | ErrTooLong => "bufio.Scanner: token too long"
  | SysError msg => msg
  | JSONError msg => msg
  | RuntimeError msg => "runtime error: " +:+ msg
  end.

(** The body of an HTTP response as a stream: the bytes it delivers, and how
    it ends: end of file ([None]) or a failed read. *)
Record Body := {
  content : string;
  failure : option error
}.

(** What the process can reach.  [stdin] lists the results of the successive
    reads of standard input, each a block of bytes, an exhausted list being
    end of file; [requests] counts the GET requests already issued. *)
Record World := {
  stdin : list string;
  requests : nat
}.

(** The observable actions, one per library call. *)
Inductive event :=
| Stdout (s : string)        (* bytes written to standard output *)
| Usage                      (* flag.PrintDefaults *)
| Get (u : string)           (* http.Get *)
| Close.                     (* response.Body.Close *)

(** How a computation ends: it returns, it panics, or it calls [os.Exit]. *)
Inductive outcome (A : Type) : Type :=
| Done (a : A)
| Panicked (e : error)
| Exited (code : Z).
Arguments Done {A} a.
Arguments Panicked {A} e.
Arguments Exited {A} code.

(** A computation: from a world to the events it emits, the world it leaves
    and its outcome. *)
Definition M (A : Type) : Type := World -> list event * World * outcome A.

Definition ret {A} (a : A) : M A := fun w => ([], w, Done a).

Definition bind {A B} (m : M A) (k : A -> M B) : M B :=
  fun w =>
    match m w with
    | (t1, w1, Done a) => let '(t2, w2, r) := k a w1 in (t1 ++ t2, w2, r)
    | (t1, w1, Panicked e) => (t1, w1, Panicked e)
    | (t1, w1, Exited c) => (t1, w1, Exited c)
    end.

Notation "x <- m ;; k" := (bind m (fun x => k))
  (at level 20, m at level 99, k at level 200, only parsing).
Notation "m ;; k" := (bind m (fun _ => k))
  (at level 100, k at level 200, right associativity, only parsing).

Definition panic {A} (e : error) : M A := fun w => ([], w, Panicked e).
Definition emit (ev : event) : M unit := fun w => ([ev], w, Done tt).

Module os.
Definition Exit {A} (code : Z) : M A := fun w => ([], w, Exited code).
End os.

Module flag.
Definition PrintDefaults : M unit := emit Usage.
End flag.

(** The printing functions of [fmt], as effects. *)
Definition Print (args : list string) : M unit :=
  emit (Stdout (fmt.Sprint args)).
Definition Println (args : list string) : M unit :=
  emit (Stdout (fmt.Sprintln args)).
Definition Printf (format : string) (args : list fmt.arg) : M unit :=
  emit (Stdout (fmt.Sprintf format args)).
Definition Errorf (format : string) (args : list fmt.arg) : error :=
  ErrorString (fmt.Sprintf format args).

(* ===================================================================== *)
(** ** bufio *)

Module bufio.

(** [Reader.ReadString delim] on a reader just made for standard input.
    The reader reads block after block until one holds [delim]; it returns
    the bytes up to and including the delimiter.  The bytes of that block
    after the delimiter stay in the buffer of the reader, which the caller
    drops.  At end of file it returns what it has read with [io.EOF]. *)
Fixpoint readUntil (delim : ascii) (acc : string) (blocks : list string)
  : string * option error * list string :=
  match blocks with
  | [] => (acc, Some EOF, [])
  | b :: rest =>
      match strings.Cut delim b with
      | (before, Some _) => (acc +:+ before +:+ String delim "", None, rest)
      | (_, None) => readUntil delim (acc +:+ b) rest
      end
  end.

Definition ReadString (delim : ascii) : M (string * option error) :=
  fun w =>
    let '(line, err, rest) := readUntil delim "" (stdin w) in
    ([], {| stdin := rest; requests := requests w |}, Done (line, err)).

(** [MaxScanTokenSize]: the largest buffer a [Scanner] allocates. *)
Definition MaxScanTokenSize : Z := 64 * 1024.

(** [dropCR] drops one terminal carriage return. *)
Definition dropCR (data : string) : string :=
  if (len data >? 0) && Ascii.eqb (byteAt data (len data - 1)) CR
  then slice data 0 (len data - 1)
  else data.

(** [ScanLines data atEOF]: how far to advance and the token, if any. *)
Definition ScanLines (data : string) (atEOF : bool) : Z * option string :=
  if atEOF && (len data =? 0) then (0, None)
  else
    match strings.Cut LF data with
    | (line, Some _) => (len line + 1, Some (dropCR line))
    | (_, None) =>
        if atEOF then (len data, Some (dropCR data)) else (0, None)
    end.

(** A [Scanner] over a response body: the bytes not yet consumed, how the
    source ends, the last token and the error kept, as [Scanner.Err]
    reports it. *)
Record Scanner := {
  pending : string;
  source : option error;
  tok : string;
  err : option error
}.

Definition NewScanner (b : Body) : Scanner :=
  {| pending := content b; source := failure b; tok := ""; err := None |}.

(** [Scanner.Scan].  The scanner holds one token's worth of bytes in a
    buffer that grows up to [MaxScanTokenSize]: when the buffer is full and
    [ScanLines] still asks for more data, the scan stops with
    [ErrTooLong]; that happens exactly when the next line, its terminator
    apart, has [MaxScanTokenSize] bytes or more.  Once the source has
    ended (end of file or a failed read) [ScanLines] runs with
    [atEOF = true] on what is left, and the error of the source is kept. *)
Definition Scan (s : Scanner) : bool * Scanner :=
  match ScanLines (pending s) false with
  | (advance, Some token) =>
      if advance >? MaxScanTokenSize then
        (false, {| pending := pending s; source := source s; tok := "";
                   err := Some ErrTooLong |})
      else
        (true, {| pending := slice (pending s) advance (len (pending s));
                  source := source s; tok := token; err := err s |})
  | (_, None) =>
      if len (pending s) >=? MaxScanTokenSize then
        (false, {| pending := pending s; source := source s; tok := "";
                   err := Some ErrTooLong |})
      else
        match ScanLines (pending s) true with
        | (advance, Some token) =>
            (true, {| pending := ""; source := source s; tok := token;
                      err := err s |})
        | (_, None) =>
            (false, {| pending := ""; source := source s; tok := "";
                       err := match err s with
                              | Some e => Some e
                              | None => source s
                              end |})
        end
  end.

Definition Text (s : Scanner) : string := tok s.

(** [Scanner.Err]: the first error met, [io.EOF] not counting as one. *)
Definition Err (s : Scanner) : option error :=
  match err s with
  | Some EOF => None
  | e => e
  end.

End bufio.

(* ===================================================================== *)
(** ** main.go: the data model *)

(** [Options] specifies the API arguments passed into the query URL. *)
Record Options := {
  Format : string;
  Pretty : Z;
  NoRedirect : Z;
  NoHTML : Z;
  SkipDisambig : Z
}.

(** [RelatedTopic]: one entry of ["RelatedTopics"] in the response. *)
Record RelatedTopic := {
  FirstURL : string;
  Text : string
}.

(** [Response]: the fields of the API response that are printed. *)
Record Response := {
  AbstractText : string;
  AbstractURL : string;
  RelatedTopics : list RelatedTopic
}.

(* ===================================================================== *)
(** ** encoding/json: a reference decoder for [Response]

    [main.go] calls [json.Unmarshal]; the program below takes the decoder
    as a parameter, and this module is the instance used to run it on
    concrete bodies.  It follows the library: the whole input is checked
    against the JSON grammar first, then the value is stored into the
    struct, a key that names no field being skipped and the first type
    mismatch being kept as the error while decoding goes on.  An array for
    [RelatedTopics] is decoded into fresh elements.  The text of the error
    messages is not modelled. *)

Module utf16.
Definition IsSurrogate (r : Z) : bool := (0xD800 <=? r) && (r <? 0xE000).
Definition DecodeRune (r1 r2 : Z) : Z :=
  if (0xD800 <=? r1) && (r1 <? 0xDC00) && (0xDC00 <=? r2) && (r2 <? 0xE000)
  then Z.lor (Z.shiftl (r1 - 0xD800) 10) (r2 - 0xDC00) + 0x10000
  else utf8.RuneError.
End utf16.

Module json.

#[local] Unset Elimination Schemes.
Inductive value :=
| Null
| Bool (b : bool)
| Number
| Str (s : string)
| Arr (elems : list value)
| Obj (members : list (string * value)).
#[local] Set Elimination Schemes.

Definition maxNestingDepth : Z := 10000.

Definition isSpace (c : ascii) : bool :=
  Ascii.eqb c " " || Ascii.eqb c TAB || Ascii.eqb c CR || Ascii.eqb c LF.

Fixpoint skipSpace (s : string) : string :=
  match s with
  | String c t => if isSpace c then skipSpace t else s
  | EmptyString => s
  end.

Definition isDigit (c : ascii) : bool := between "0" "9" c.

Fixpoint skipDigits (s : string) : string :=
  match s with
  | String c t => if isDigit c then skipDigits t else s
  | EmptyString => s
  end.

(** One digit at least, then the rest of the digits. *)
Definition digits1 (s : string) : option string :=
  match s with
  | String c t => if isDigit c then Some (skipDigits t) else None
  | EmptyString => None
  end.

(** A number: an optional minus sign; a zero, or a digit from 1 to 9 and
    any digits; optionally a point and one digit or more; optionally an
    [e] or [E], an optional sign and one digit or more.  The result is the
    text after the number. *)
Definition number (s : string) : option string :=
  let s := match s with
           | String c t => if Ascii.eqb c "-" then t else s
           | EmptyString => s
           end in
  match s with
  | String c t =>
      let int :=
        if Ascii.eqb c "0" then Some t
        else if isDigit c then Some (skipDigits t)
        else None in
      match int with
      | None => None
      | Some s =>
          let frac :=
            match s with
            | String c t => if Ascii.eqb c "." then digits1 t else Some s
            | EmptyString => Some s
            end in
          match frac with
          | None => None
          | Some s =>
              match s with
              | String c t =>
                  if Ascii.eqb c "e" || Ascii.eqb c "E" then
                    match t with
                    | String d u =>
                        if Ascii.eqb d "+" || Ascii.eqb d "-" then digits1 u
                        else digits1 t
                    | EmptyString => None
                    end
                  else Some s
              | EmptyString => Some s
              end
          end
      end
  | EmptyString => None
  end.

(** [utf8.EncodeRune] (it belongs to unicode/utf8; only the decoder of
    strings needs it). *)
Definition EncodeRune (r : Z) : string :=
  let b (z : Z) := z2b z in
  if (0 <=? r) && (r <=? 0x7F) then String (b r) ""
  else if (0 <=? r) && (r <=? 0x7FF) then
    String (b (Z.lor 0xC0 (Z.shiftr r 6)))
      (String (b (Z.lor 0x80 (Z.land r 0x3F))) "")
  else
    let r := if (r <? 0) || (0x10FFFF <? r) || utf16.IsSurrogate r
             then utf8.RuneError else r in
    if r <=? 0xFFFF then
      String (b (Z.lor 0xE0 (Z.shiftr r 12)))
        (String (b (Z.lor 0x80 (Z.land (Z.shiftr r 6) 0x3F)))
           (String (b (Z.lor 0x80 (Z.land r 0x3F))) ""))
    else
      String (b (Z.lor 0xF0 (Z.shiftr r 18)))
        (String (b (Z.lor 0x80 (Z.land (Z.shiftr r 12) 0x3F)))
           (String (b (Z.lor 0x80 (Z.land (Z.shiftr r 6) 0x3F)))
              (String (b (Z.lor 0x80 (Z.land r 0x3F))) ""))).

(** [getu4]: the code unit of a backslash-u escape of four hex digits at
    the head of [s], or [-1]. *)
Definition getu4 (s : string) : Z :=
  match s with
  | String b (String u (String h1 (String h2 (String h3 (String h4 _))))) =>
      if Ascii.eqb b "\" && Ascii.eqb u "u" && url.ishex h1 && url.ishex h2
         && url.ishex h3 && url.ishex h4
      then Z.lor (Z.lor (Z.lor (Z.shiftl (url.unhex h1) 12)
                               (Z.shiftl (url.unhex h2) 8))
                        (Z.shiftl (url.unhex h3) 4)) (url.unhex h4)
      else -1
  | _ => -1
  end.

(** The body of a string literal, after its opening quote: the decoded
    string and the text after the closing quote.  A control byte, an
    escape that is not one of the grammar and a missing closing quote are
    syntax errors; a byte sequence that is not UTF-8 and a surrogate
    without its pair become U+FFFD. *)
Fixpoint unquote (n : nat) (s : string) : option (string * string) :=
  match n with
  | O => None
  | S k =>
      match s with
      | EmptyString => None
      | String c t =>
          let cont (piece rest : string) :=
            match unquote k rest with
            | Some (r, after) => Some (piece +:+ r, after)
            | None => None
            end in
          if Ascii.eqb c DQUOTE then Some ("", t)
          else if b2z c <? 0x20 then None
          else if Ascii.eqb c "\" then
            match t with
            | EmptyString => None
            | String e u =>
                if Ascii.eqb e DQUOTE then cont (String DQUOTE "") u
                else if Ascii.eqb e "\" then cont "\" u
                else if Ascii.eqb e "/" then cont "/" u
                else if Ascii.eqb e "b" then cont (String "008" "") u
                else if Ascii.eqb e "f" then cont (String "012" "") u
                else if Ascii.eqb e "n" then cont (String "010" "") u
                else if Ascii.eqb e "r" then cont (String "013" "") u
                else if Ascii.eqb e "t" then cont (String "009" "") u
                else if Ascii.eqb e "u" then
                  let rr := getu4 s in
                  if rr <? 0 then None
                  else
                    let after1 := slice s 6 (len s) in
                    if utf16.IsSurrogate rr then
                      let rr1 := getu4 after1 in
                      let dec := utf16.DecodeRune rr rr1 in
                      if negb (dec =? utf8.RuneError) then
                        cont (EncodeRune dec) (slice s 12 (len s))
                      else cont (EncodeRune utf8.RuneError) after1
                    else cont (EncodeRune rr) after1
                else None
            end
          else if b2z c <? utf8.RuneSelf then cont (String c "") t
          else
            let '(rr, size) := utf8.DecodeRuneInString s in
            cont (EncodeRune rr) (slice s size (len s))
      end
  end.

Definition stringLit (s : string) : option (string * string) :=
  unquote (S (String.length s)) s.

Definition literal (word : string) (v : value) (s : string)
  : option (value * string) :=
  if String.prefix word s then
    Some (v, slice s (len word) (len s))
  else None.

(** A value, the elements of an array after its first bracket and the
    members of an object after its first brace.  [n] bounds the calls in
    flight, [depth] counts the arrays and objects that are open. *)
Fixpoint parseValue (n : nat) (depth : Z) (s : string)
  : option (value * string) :=
  match n with
  | O => None
  | S k =>
      match skipSpace s with
      | EmptyString => None
      | String c t =>
          if Ascii.eqb c "{" then
            if depth + 1 >? maxNestingDepth then None
            else
              match skipSpace t with
              | String d u =>
                  if Ascii.eqb d "}" then Some (Obj [], u)
                  else
                    match parseMembers k (depth + 1) t with
                    | Some (ms, rest) => Some (Obj ms, rest)
                    | None => None
                    end
              | EmptyString => None
              end
          else if Ascii.eqb c "[" then
            if depth + 1 >? maxNestingDepth then None
            else
              match skipSpace t with
              | String d u =>
                  if Ascii.eqb d "]" then Some (Arr [], u)
                  else
                    match parseElems k (depth + 1) t with
                    | Some (vs, rest) => Some (Arr vs, rest)
                    | None => None
                    end
              | EmptyString => None
              end
          else if Ascii.eqb c DQUOTE then
            match stringLit t with
            | Some (str, rest) => Some (Str str, rest)
            | None => None
            end
          else if Ascii.eqb c "-" || isDigit c then
            match number (String c t) with
            | Some rest => Some (Number, rest)
            | None => None
            end
          else if Ascii.eqb c "t" then literal "true" (Bool true) (String c t)
          else if Ascii.eqb c "f" then literal "false" (Bool false) (String c t)
          else if Ascii.eqb c "n" then literal "null" Null (String c t)
          else None
      end
  end
with parseElems (n : nat) (depth : Z) (s : string)
  : option (list value * string) :=
  match n with
  | O => None
  | S k =>
      match parseValue k depth s with
      | None => None
      | Some (v, rest) =>
          match skipSpace rest with
          | String c t =>
              if Ascii.eqb c "," then
                match parseElems k depth t with
                | Some (vs, rest') => Some (v :: vs, rest')
                | None => None
                end
              else if Ascii.eqb c "]" then Some ([v], t)
              else None
          | EmptyString => None
          end
      end
  end
with parseMembers (n : nat) (depth : Z) (s : string)
  : option (list (string * value) * string) :=
  match n with
  | O => None
  | S k =>
      match skipSpace s with
      | String q t =>
          if Ascii.eqb q DQUOTE then
            match stringLit t with
            | None => None
            | Some (key, rest) =>
                match skipSpace rest with
                | String c u =>
                    if Ascii.eqb c ":" then
                      match parseValue k depth u with
                      | None => None
                      | Some (v, rest') =>
                          match skipSpace rest' with
                          | String d x =>
                              if Ascii.eqb d "," then
                                match parseMembers k depth x with
                                | Some (ms, rest'') =>
                                    Some ((key, v) :: ms, rest'')
                                | None => None
                                end
                              else if Ascii.eqb d "}" then
                                Some ([(key, v)], x)
                              else None
                          | EmptyString => None
                          end
                      end
                    else None
                | EmptyString => None
                end
            end
          else None
      | EmptyString => None
      end
  end.

(** [checkValid] and the scan in one: the value of a text that is one
    JSON value between optional white space, [None] for a text that is
    not. *)
Definition parse (data : string) : option value :=
  match parseValue (2 * String.length data + 2) 0 data with
  | Some (v, rest) =>
      match skipSpace rest with
      | EmptyString => Some v
      | _ => None
      end
  | None => None
  end.

(** Keys match field names exactly or, failing that, under case folding:
    ASCII letters fold to upper case, U+017F folds with [S] and U+212A
    with [K]; no other rune folds to an ASCII letter. *)
Fixpoint foldName (n : nat) (s : string) : string :=
  match n with
  | O => s
  | S k =>
      match s with
      | EmptyString => EmptyString
      | String c t =>
          if between "a" "z" c then
            String (z2b (b2z c - (b2z "a" - b2z "A"))) (foldName k t)
          else if b2z c <? utf8.RuneSelf then String c (foldName k t)
          else
            let '(r, size) := utf8.DecodeRuneInString s in
            let rest := foldName k (slice s size (len s)) in
            if r =? 0x17F then String "S" rest
            else if r =? 0x212A then String "K" rest
            else slice s 0 size +:+ rest
      end
  end.

Definition fold (s : string) : string := foldName (String.length s) s.

(** The field a key selects among [names]: an exact match, else the first
    match under folding. *)
Definition field (key : string) (names : list string) : option string :=
  match find (String.eqb key) names with
  | Some f => Some f
  | None => find (fun f => String.eqb (fold key) (fold f)) names
  end.

Definition UnmarshalTypeError (what into : string) : error :=
  JSONError ("json: cannot unmarshal " +:+ what +:+ " into Go value of type "
             +:+ into).

Definition SyntaxError : error := JSONError "json: syntax error".

(** [saveError]: the first error is the one kept. *)
Definition saveError (saved new : option error) : option error :=
  match saved with
  | Some e => Some e
  | None => new
  end.

Definition kind (v : value) : string :=
  match v with
  | Null => "null"
  | Bool _ => "bool"
  | Number => "number"
  | Str _ => "string"
  | Arr _ => "array"
  | Obj _ => "object"
  end.

(** A value stored into a string field. *)
Definition storeString (v : value) (cur : string) : string * option error :=
  match v with
  | Str s => (s, None)
  | Null => (cur, None)
  | _ => (cur, Some (UnmarshalTypeError (kind v) "string"))
  end.

(** A value stored into a [RelatedTopic]. *)
Definition storeTopic (v : value) (cur : RelatedTopic)
  : RelatedTopic * option error :=
  match v with
  | Obj members =>
      fold_left
        (fun (acc : RelatedTopic * option error) (m : string * value) =>
           let '(t, saved) := acc in
           let '(key, v) := m in
           match field key ["FirstURL"; "Text"] with
           | Some f =>
               if String.eqb f "FirstURL" then
                 let '(s, e) := storeString v (FirstURL t) in
                 ({| FirstURL := s; Text := Text t |}, saveError saved e)
               else
                 let '(s, e) := storeString v (Text t) in
                 ({| FirstURL := FirstURL t; Text := s |}, saveError saved e)
           | None => acc
           end)
        members (cur, None)
  | Null => (cur, None)
  | _ => (cur, Some (UnmarshalTypeError (kind v) "main.RelatedTopic"))
  end.

(** A value stored into the slice of related topics: an array replaces
    the slice, every element being decoded into a zero [RelatedTopic]. *)
Definition storeTopics (v : value) (cur : list RelatedTopic)
  : list RelatedTopic * option error :=
  match v with
  | Arr elems =>
      fold_left
        (fun (acc : list RelatedTopic * option error) (v : value) =>
           let '(ts, saved) := acc in
           let '(t, e) := storeTopic v {| FirstURL := ""; Text := "" |} in
           (ts ++ [t], saveError saved e))
        elems ([], None)
  | Null => ([], None)
  | _ => (cur, Some (UnmarshalTypeError (kind v) "[]main.RelatedTopic"))
  end.

(** A value stored into a [Response]. *)
Definition storeResponse (v : value) (cur : Response)
  : Response * option error :=
  match v with
  | Obj members =>
      fold_left
        (fun (acc : Response * option error) (m : string * value) =>
           let '(r, saved) := acc in
           let '(key, v) := m in
           match field key ["AbstractText"; "AbstractURL"; "RelatedTopics"] with
           | Some f =>
               if String.eqb f "AbstractText" then
                 let '(s, e) := storeString v (AbstractText r) in
                 ({| AbstractText := s; AbstractURL := AbstractURL r;
                     RelatedTopics := RelatedTopics r |}, saveError saved e)
               else if String.eqb f "AbstractURL" then
                 let '(s, e) := storeString v (AbstractURL r) in
                 ({| AbstractText := AbstractText r; AbstractURL := s;
                     RelatedTopics := RelatedTopics r |}, saveError saved e)
               else
                 let '(ts, e) := storeTopics v (RelatedTopics r) in
                 ({| AbstractText := AbstractText r;
                     AbstractURL := AbstractURL r;
                     RelatedTopics := ts |}, saveError saved e)
           | None => acc
           end)
        members (cur, None)
  | Null => (cur, None)
  | _ => (cur, Some (UnmarshalTypeError (kind v) "main.Response"))
  end.

(** [json.Unmarshal data &v] for [v] a [Response]. *)
Definition Unmarshal (data : string) (v : Response)
  : Response * option error :=
  match parse data with
  | None => (v, Some SyntaxError)
  | Some val => storeResponse val v
  end.

End json.

(* ===================================================================== *)
(** ** main.go *)

(** [TerminalColors]: the strings that change the colour of the terminal. *)
Definition TerminalColors : gmap string string :=
  list_to_map
    [ ("Reset", String ESC "[0m");
      ("Red", String ESC "[31m");
      ("Green", String ESC "[33m");
      ("Blue", String ESC "[34m");
      ("White", String ESC "[37m");
      ("Yellow", String ESC "[33m") ].

(** [TerminalColors[key]]: a key that is absent gives the empty string. *)
Definition colour (key : string) : string := default "" (TerminalColors !! key).

(** The command-line flags after [flag.Parse]. *)
Record Flags := {
  flagSearch : string;
  flagHelp : bool;
  flagEmpty : bool
}.

(** [searchPrompt] prompts the user for a search query. *)
Definition searchPrompt : M (string * option error) :=
  Print [nl +:+ "Search: "] ;;
  r <- bufio.ReadString LF ;;
  let '(query, err) := r in
  match err with
  | Some e => ret ("", Some e)
  | None =>
      if String.eqb (strings.TrimSpace query) "" then
        ret ("", Some (Errorf "Invalid input" []))
      else ret (query, None)
  end.

(** [getAPIURL] formats the URL that queries the API. *)
Definition getAPIURL (queryString : string) (options : Options) : string :=
  let queryString := url.QueryEscape queryString in
  fmt.Sprintf
    "https://api.duckduckgo.com/?q=%s&format=%s&pretty=%d&no_redirect=%d&no_html=%d&skip_disambig=%d&t=duckduckgo-answers"
    [fmt.ArgS queryString; fmt.ArgS (Format options); fmt.ArgD (Pretty options);
     fmt.ArgD (NoRedirect options); fmt.ArgD (NoHTML options);
     fmt.ArgD (SkipDisambig options)].

(** The loop [for scanner.Scan() { stringResponse = append(stringResponse,
    scanner.Text()) }].  Every successful [Scan] consumes a byte, so a budget
    above the length of the body is never used up. *)
Fixpoint scanLoop (n : nat) (scanner : bufio.Scanner)
         (stringResponse : list string) : bufio.Scanner * list string :=
  match n with
  | O => (scanner, stringResponse)
  | S k =>
      match bufio.Scan scanner with
      | (true, scanner') =>
          scanLoop k scanner' (stringResponse ++ [bufio.Text scanner'])
      | (false, scanner') => (scanner', stringResponse)
      end
  end.

(** [responseToString] reads the body line by line and joins the lines. *)
Definition responseToString (response : Body) : M string :=
  let stringResponse := [""] in
  let scanner := bufio.NewScanner response in
  let '(scanner, stringResponse) :=
    scanLoop (S (S (String.length (content response)))) scanner stringResponse in
  match bufio.Err scanner with
  | Some e => panic e
  | None =>
      emit Close ;;
      ret (strings.Join stringResponse "")
  end.

(** [for key := range ... { body }], over the indices [keys]. *)
Fixpoint forRange (keys : list nat) (body : nat -> M unit) : M unit :=
  match keys with
  | [] => ret tt
  | key :: rest => body key ;; forRange rest body
  end.

(** [input.RelatedTopics[key]]; an index out of range panics. *)
Definition index (topics : list RelatedTopic) (key : nat) : M RelatedTopic :=
  match topics !! key with
  | Some t => ret t
  | None => panic (RuntimeError "index out of range")
  end.

(** [printResponse] writes the answer to standard output. *)
Definition printResponse (input : Response) : M unit :=
  Printf (nl +:+ " %s " +:+ nl +:+ " " +:+ nl) [fmt.ArgS (AbstractText input)] ;;
  (if negb (String.eqb (AbstractURL input) "") then
     Println [colour "Green"; "More info:"] ;;
     Println [colour "Blue"; tab +:+ AbstractURL input +:+ nl]
   else ret tt) ;;
  Println [colour "Green"; "Related topics: "] ;;
  forRange (seq 0 (length (RelatedTopics input)))
    (fun key =>
       t <- index (RelatedTopics input) key ;;
       Println [colour "Blue"; tab +:+ FirstURL t] ;;
       t <- index (RelatedTopics input) key ;;
       Println [colour "White"; tab +:+ Text t +:+ nl]) ;;
  (* Reset the terminal color after we finish printing *)
  Print [colour "Reset"].

Section Program.

(** The network: the reply to the [n]-th GET request of the run, for the
    URL it asks. *)
Variable network : nat -> string -> Body + error.

(** [json.Unmarshal data &v]: the value [v] after decoding, and the error
    returned. *)
Variable json_Unmarshal : string -> Response -> Response * option error.

Definition http_Get (u : string) : M (Body + error) :=
  fun w =>
    ([Get u], {| stdin := stdin w; requests := S (requests w) |},
     Done (network (requests w) u)).

Definition queryAPI (apiURL : string) : M Body :=
  r <- http_Get apiURL ;;
  match r with
  | inr e => panic e
  | inl response => ret response
  end.

Definition unmarshalResponse (jsonInput : string) : M Response :=
  let jsonData := {| AbstractText := ""; AbstractURL := "";
                     RelatedTopics := [] |} in
  let jsonBytes := jsonInput in
  match json_Unmarshal jsonBytes jsonData with
  | (_, Some e) => panic e
  | (jsonData, None) => ret jsonData
  end.

Definition processAPIRequest (query : string) (options : Options) : M unit :=
  (* Encode the users input query into URL format *)
  let queryURL := getAPIURL query options in
  (* Use http.Get() to retrieve an HTTP response for our query *)
  apiResponse <- queryAPI queryURL ;;
  (* Read the response then combine it into a single string *)
  stringAnswer <- responseToString apiResponse ;;
  (* Unmarshal the JSON-encoded string into our Response{} *)
  parsedResponse <- unmarshalResponse stringAnswer ;;
  (* Nicely print the response data *)
  printResponse parsedResponse.

Definition queryOptions : Options :=
  {| Format := "json"; Pretty := 1; NoRedirect := 1; NoHTML := 1;
     SkipDisambig := 1 |}.

(** One turn of the interactive loop of [main]. *)
Definition iteration : M unit :=
  (* Ask the user for a search query *)
  r <- searchPrompt ;;
  let '(userInput, err) := r in
  match err with
  | Some e => Println [Error e]        (* continue *)
  | None => processAPIRequest userInput queryOptions
  end.

(** The first [n] turns of [for { ... }]; the loop has no exit of its
    own, so [Done] here means that it is still running. *)
Fixpoint interactive (n : nat) : M unit :=
  match n with
  | O => ret tt
  | S k => iteration ;; interactive k
  end.

(** [main], for parsed flags; [n] bounds the turns of the interactive
    loop that are run. *)
Definition main (flags : Flags) (n : nat) : M unit :=
  (* If a help parameter was specified, print usage information *)
  if flagHelp flags then
    flag.PrintDefaults ;; os.Exit (-1)
  else
    (* If a search parameter was specified, do not run interactively *)
    if negb (String.eqb (flagSearch flags) "") then
      processAPIRequest (flagSearch flags) queryOptions ;; os.Exit 1
    else
      (* Interactive mode, with a search prompt *)
      interactive n.

End Program.

(* ===================================================================== *)
(** ** The earlier version of the program

    The repository keeps an earlier [main.go]: no flags, no test of the
    line read, no Info section and no colour reset.  Its [getAPIURL],
    [queryAPI], [responseToString] and [RelatedTopic] are the ones above,
    word for word; the functions that differ are embedded here. *)

Module Legacy.

(** [Response], with the two fields the later version dropped. *)
Record Response := {
  Abstract : string;
  AbstractSource : string;
  AbstractText : string;
  AbstractURL : string;
  RelatedTopics : list RelatedTopic
}.

(** [searchPrompt] returns what [ReadString] read and drops its error. *)
Definition searchPrompt : M string :=
  Print [nl +:+ "Search: "] ;;
  r <- bufio.ReadString LF ;;
  let '(query, _) := r in
  ret query.

(** [printResponse]: the abstract, one header, the related topics. *)
Definition printResponse (input : Response) : M unit :=
  Printf (nl +:+ " %s " +:+ nl +:+ " " +:+ nl) [fmt.ArgS (AbstractText input)] ;;
  Println [colour "Green"; "More info: "] ;;
  forRange (seq 0 (length (RelatedTopics input)))
    (fun key =>
       t <- index (RelatedTopics input) key ;;
       Println [colour "Blue"; tab +:+ FirstURL t] ;;
       t <- index (RelatedTopics input) key ;;
       Println [colour "White"; tab +:+ Text t +:+ nl]).

Section Program.

Variable network : nat -> string -> Body + error.
Variable json_Unmarshal : string -> Response -> Response * option error.

Definition unmarshalResponse (jsonInput : string) : M Response :=
  let jsonData := {| Abstract := ""; AbstractSource := ""; AbstractText := "";
                     AbstractURL := ""; RelatedTopics := [] |} in
  let jsonBytes := jsonInput in
  match json_Unmarshal jsonBytes jsonData with
  | (_, Some e) => panic e
  | (jsonData, None) => ret jsonData
  end.

(** One turn of the loop of [main]. *)
Definition iteration : M unit :=
  (* Ask the user for a search query *)
  userInput <- searchPrompt ;;
  (* Encode the users input query into URL format *)
  let queryURL := getAPIURL userInput queryOptions in
  (* Use http.Get() to retrieve an HTTP response for our query *)
  apiResponse <- queryAPI network queryURL ;;
  (* Read the response then combine it into a single string *)
  stringAnswer <- responseToString apiResponse ;;
  (* Unmarshal the JSON-encoded string into our Response{} *)
  parsedResponse <- unmarshalResponse stringAnswer ;;
  (* Nicely print the response data *)
  printResponse parsedResponse.

(** The first [n] turns of [for { ... }], which is all of [main]. *)
Fixpoint main (n : nat) : M unit :=
  match n with
  | O => ret tt
  | S k => iteration ;; main k
  end.

End Program.

End Legacy.

(* ===================================================================== *)
(** * The vocabulary of the statements *)

Ltac by_byte c :=
  destruct c as [[] [] [] [] [] [] [] []]; vm_compute;
  first [ reflexivity | discriminate | tauto | intuition discriminate ].

(** [QueryOptions] of the specification: a format and four flags, each off
    or on.  In [Options] a flag that is off is the int [0], on is [1]. *)
Definition flagged (format : string) (pretty noRedirect noHTML skip : bool)
  : Options :=
  {| Format := format; Pretty := Z.b2z pretty; NoRedirect := Z.b2z noRedirect;
     NoHTML := Z.b2z noHTML; SkipDisambig := Z.b2z skip |}.

(** The digit a flag is written as. *)
Definition bit (b : bool) : string := if b then "1" else "0".

Definition green : string := String ESC "[33m".
Definition blue : string := String ESC "[34m".
Definition white : string := String ESC "[37m".
Definition reset : string := String ESC "[0m".

(** The pieces of the output, one per call of a printing function. *)
Definition abstractLine (input : Response) : string :=
  nl +:+ " " +:+ AbstractText input +:+ " " +:+ nl +:+ " " +:+ nl.
Definition infoHeader : string := green +:+ " More info:" +:+ nl.
Definition infoLine (u : string) : string :=
  blue +:+ " " +:+ tab +:+ u +:+ nl +:+ nl.
Definition relatedHeader : string := green +:+ " Related topics: " +:+ nl.
Definition urlLine (t : RelatedTopic) : string :=
  blue +:+ " " +:+ tab +:+ FirstURL t +:+ nl.
Definition textLine (t : RelatedTopic) : string :=
  white +:+ " " +:+ tab +:+ Text t +:+ nl +:+ nl.

(** The Info section: nothing for an empty abstract URL. *)
Definition infoSection (input : Response) : list event :=
  if String.eqb (AbstractURL input) "" then []
  else [Stdout infoHeader; Stdout (infoLine (AbstractURL input))].

Definition topicLines (t : RelatedTopic) : list event :=
  [Stdout (urlLine t); Stdout (textLine t)].

(** The events a computation emits from a world. *)
Definition trace {A} (m : M A) (w : World) : list event := (m w).1.1.

(** A line is blank when no rune of it is other than white space, as
    [unicode.IsSpace] has it; the empty line is blank. *)
Definition blank (line : string) : Prop :=
  strings.indexFunc line unicode.IsSpace false = -1.

Definition prompt : string := nl +:+ "Search: ".

(** The world after one [ReadString] that left [rest] unread. *)
Definition afterRead (w : World) (rest : list string) : World :=
  {| stdin := rest; requests := requests w |}.

(** The error that [searchPrompt] reports for a line. *)
Definition invalidInput : error := ErrorString "Invalid input".

(** The lines of a body: the stretches between newlines, the last one
    counting when it is not empty. *)
Fixpoint lines (s : string) : list string :=
  match s with
  | EmptyString => []
  | String c t =>
      if Ascii.eqb c LF then EmptyString :: lines t
      else match lines t with
           | [] => [String c EmptyString]
           | l :: ls => String c l :: ls
           end
  end.

(** A line that fits the buffer of the scanner. *)
Definition short (line : string) : bool := len line <? bufio.MaxScanTokenSize.

(** The error the scanner ends with: [ErrTooLong] when a line does not fit,
    else the failure of the body, if any; a body that ends with [io.EOF]
    has not failed. *)
Definition readError (response : Body) : option error :=
  if forallb short (lines (content response)) then
    match failure response with
    | Some EOF => None
    | e => e
    end
  else Some ErrTooLong.

(** The text read from a body: its lines, each without its terminator (the
    newline, and the carriage return before it when there is one), joined. *)
Definition textOf (response : Body) : string :=
  foldr String.append "" (map bufio.dropCR (lines (content response))).

(** The zero [Response] that [unmarshalResponse] decodes into. *)
Definition zeroResponse : Response :=
  {| AbstractText := ""; AbstractURL := ""; RelatedTopics := [] |}.

(** The world after one more request. *)
Definition afterGet (w : World) : World :=
  {| stdin := stdin w; requests := S (requests w) |}.

(** The output [printResponse] writes for a response. *)
Definition rendering (input : Response) : list event :=
  [Stdout (abstractLine input)] ++ infoSection input
    ++ [Stdout relatedHeader] ++ flat_map topicLines (RelatedTopics input)
    ++ [Stdout reset].

(** Whether an event is a write to standard output. *)
Definition isStdout (ev : event) : bool :=
  match ev with
  | Stdout _ => true
  | _ => false
  end.

(** The URLs of the requests in a trace. *)
Definition gets (t : list event) : list string :=
  omap (fun ev => match ev with Get u => Some u | _ => None end) t.

(** JSON texts are written with apostrophes for the double quotes. *)
Fixpoint dq (s : string) : string :=
  match s with
  | EmptyString => EmptyString
  | String c t => String (if Ascii.eqb c "'" then DQUOTE else c) (dq t)
  end.

(** A world with nothing on standard input and no request issued yet. *)
Definition idle : World := {| stdin := []; requests := 0 |}.

(** A world in which the user types one line. *)
Definition typing (line : string) : World :=
  {| stdin := [line]; requests := 0 |}.

(** A network that answers every request with the same body. *)
Definition serving (response : Body) (n : nat) (u : string) : Body + error :=
  inl response.

Definition whole (text : string) : Body :=
  {| content := text; failure := None |}.

(** A page that is no JSON. *)
Definition htmlBody : Body := whole "<html>Service Unavailable</html>".




(** The two bodies of the testable properties of the specification. *)
Definition helloBody : Body :=
  whole (dq "{'AbstractText':'Hello','AbstractURL':'','RelatedTopics':[]}").

Definition twoTopicsBody : Body :=
  whole (dq "{'AbstractText':'X','AbstractURL':'http://example.com','RelatedTopics':[{'FirstURL':'http://a','Text':'A'},{'FirstURL':'http://b','Text':'B'}]}").

(** U+00A0, the no-break space, in UTF-8. *)
Definition NBSP : string := String "194" (String "160" "").

(** U+00E9 in UTF-8. *)
Definition eacute : string := String "195" (String "169" "").

Definition oneShot (query : string) : Flags :=
  {| flagSearch := query; flagHelp := false; flagEmpty := false |}.

(** Whether every byte of a string passes a test. *)
Fixpoint allBytes (p : ascii -> bool) (s : string) : bool :=
  match s with
  | EmptyString => true
  | String c t => p c && allBytes p t
  end.

(** The bytes a URL built by [getAPIURL] is made of: letters, digits, the
    marks that are never escaped, the two bytes escaping introduces and the
    delimiters of the format string. *)
Definition urlByte (c : ascii) : bool :=
  negb (url.shouldEscape c) || mem c "%+:/?&=".

(** What one turn at end of input writes. *)
Definition eofTurn : list event :=
  [Stdout prompt; Stdout ("EOF" +:+ nl)].

(** A network on which every request fails. *)
Definition unreachable (e : error) (n : nat) (u : string) : Body + error :=
  inr e.


(** The header the earlier version writes before the related topics. *)
Definition legacyHeader : string := green +:+ " More info: " +:+ nl.

(** The zero value the earlier [unmarshalResponse] decodes into. *)
Definition legacyZero : Legacy.Response :=
  {| Legacy.Abstract := ""; Legacy.AbstractSource := "";
     Legacy.AbstractText := ""; Legacy.AbstractURL := "";
     Legacy.RelatedTopics := [] |}.

(** A decoder for the earlier version that accepts every text and stores
    it as the abstract. *)
Definition echoDecoder (data : string) (v : Legacy.Response)
  : Legacy.Response * option error :=
  ({| Legacy.Abstract := ""; Legacy.AbstractSource := "";
      Legacy.AbstractText := data; Legacy.AbstractURL := "";
      Legacy.RelatedTopics := [] |}, None).

(** The output the earlier [printResponse] writes for a response. *)
Definition legacyRendering (input : Legacy.Response) : list event :=
  [Stdout (nl +:+ " " +:+ Legacy.AbstractText input +:+ " " +:+ nl +:+ " "
           +:+ nl);
   Stdout legacyHeader]
  ++ flat_map topicLines (Legacy.RelatedTopics input).

(* ===================================================================== *)
(** * Lemmas and theorems *)

Lemma ascii_eqb_refl (c : ascii) : Ascii.eqb c c = true.
Proof. apply Ascii.eqb_eq; reflexivity. Qed.

Lemma hexdigit_hi_ishex (c : ascii) :
  url.ishex (url.hexdigit (Z.shiftr (b2z c) 4)) = true.
Proof. by_byte c. Qed.

Lemma hexdigit_lo_ishex (c : ascii) :
  url.ishex (url.hexdigit (Z.land (b2z c) 15)) = true.
Proof. by_byte c. Qed.

Lemma unhex_hexdigit (c : ascii) :
  z2b (Z.lor (Z.shiftl (url.unhex (url.hexdigit (Z.shiftr (b2z c) 4))) 4)
             (url.unhex (url.hexdigit (Z.land (b2z c) 15)))) = c.
Proof. by_byte c. Qed.

Lemma hexdigit_hi_plain (c : ascii) :
  url.shouldEscape (url.hexdigit (Z.shiftr (b2z c) 4)) = false.
Proof. by_byte c. Qed.

Lemma hexdigit_lo_plain (c : ascii) :
  url.shouldEscape (url.hexdigit (Z.land (b2z c) 15)) = false.
Proof. by_byte c. Qed.

Lemma plain_not_percent (c : ascii) :
  url.shouldEscape c = false -> Ascii.eqb c "%" = false.
Proof. by_byte c. Qed.

Lemma plain_not_plus (c : ascii) :
  url.shouldEscape c = false -> Ascii.eqb c "+" = false.
Proof. by_byte c. Qed.

Lemma space_escaped : url.shouldEscape " " = true.
Proof. reflexivity. Qed.

(** ** Strings *)

Lemma append_assoc (a b c : string) : (a +:+ b) +:+ c = a +:+ (b +:+ c).
Proof. induction a as [|x a IH]; simpl; [reflexivity | now rewrite IH]. Qed.

Lemma append_nil_r (a : string) : a +:+ "" = a.
Proof. induction a as [|x a IH]; simpl; [reflexivity | now rewrite IH]. Qed.

Lemma Cut_app_notin (sep : ascii) (a b : string) :
  mem sep a = false ->
  strings.Cut sep (a +:+ b) = (a +:+ fst (strings.Cut sep b), snd (strings.Cut sep b)).
Proof.
  induction a as [|x a IH]; simpl; intros H.
  - now destruct (strings.Cut sep b).
  - apply orb_false_iff in H as [Hx Ha].
    rewrite Ascii.eqb_sym, Hx, (IH Ha). reflexivity.
Qed.

Lemma Split_app_sep (sep : ascii) (a b : string) :
  mem sep a = false ->
  strings.Split sep (a +:+ String sep b) = a :: strings.Split sep b.
Proof.
  induction a as [|x a IH]; simpl; intros H.
  - now rewrite ascii_eqb_refl.
  - apply orb_false_iff in H as [Hx Ha].
    rewrite Ascii.eqb_sym, Hx, (IH Ha). reflexivity.
Qed.

(** ** net/url: escaping *)

(** A byte that escaping never copies, other than the two it introduces,
    does not occur in an escaped string. *)
Lemma escape_free (c : ascii) (s : string) :
  url.shouldEscape c = true ->
  Ascii.eqb c "+" = false -> Ascii.eqb c "%" = false ->
  mem c (url.escape s) = false.
Proof.
  intros Hc Hplus Hpct.
  assert (Hne : forall d, url.shouldEscape d = false -> Ascii.eqb c d = false).
  { intros d Hd. destruct (Ascii.eqb c d) eqn:E; [|reflexivity].
    apply Ascii.eqb_eq in E. subst d. congruence. }
  induction s as [|d s IH]; simpl; [reflexivity|].
  destruct (Ascii.eqb d " ").
  - simpl. now rewrite Hplus, IH.
  - destruct (url.shouldEscape d) eqn:Hd; simpl.
    + rewrite Hpct, (Hne _ (hexdigit_hi_plain d)), (Hne _ (hexdigit_lo_plain d)).
      exact IH.
    + now rewrite (Hne _ Hd), IH.
Qed.

(** Unescaping undoes escaping. *)
Lemma unescape_escape (s : string) : url.unescape (url.escape s) = inl s.
Proof.
  induction s as [|d s IH]; [reflexivity|].
  cbn [url.escape].
  destruct (Ascii.eqb d " ") eqn:Hsp.
  - apply Ascii.eqb_eq in Hsp. subst d.
    cbn [url.unescape]. rewrite IH. reflexivity.
  - destruct (url.shouldEscape d) eqn:Hd.
    + cbn [url.unescape]. rewrite ascii_eqb_refl.
      rewrite hexdigit_hi_ishex, hexdigit_lo_ishex. cbn [andb].
      rewrite IH, unhex_hexdigit. reflexivity.
    + cbn [url.unescape].
      rewrite (plain_not_percent _ Hd), IH, (plain_not_plus _ Hd).
      reflexivity.
Qed.

(** ** fmt and [getAPIURL] *)

(** The URL that [Sprintf] builds, written out; the ints appear in decimal. *)
Lemma getAPIURL_decimal (queryString : string) (options : Options) :
  getAPIURL queryString options =
  "https://api.duckduckgo.com/?q=" +:+ url.QueryEscape queryString
  +:+ "&format=" +:+ Format options
  +:+ "&pretty=" +:+ fmt.decimal (Pretty options)
  +:+ "&no_redirect=" +:+ fmt.decimal (NoRedirect options)
  +:+ "&no_html=" +:+ fmt.decimal (NoHTML options)
  +:+ "&skip_disambig=" +:+ fmt.decimal (SkipDisambig options)
  +:+ "&t=duckduckgo-answers".
Proof.
  unfold getAPIURL. cbn. reflexivity.
Qed.

(** C9: for every query string and every options value, [getAPIURL]
    returns exactly
    [https://api.duckduckgo.com/?q=<encoded>&format=<fmt>&pretty=<0|1>&no_redirect=<0|1>&no_html=<0|1>&skip_disambig=<0|1>&t=duckduckgo-answers],
    where [<encoded>] is the escaped query and the client identifier is the
    constant [duckduckgo-answers]: a flag that is off is written [0], one
    that is on [1] (and an [Options] value built with other ints shows them
    in decimal at the same places).  The right-hand sides mention the query
    and the options only: the URL is a function of the two. *)
Theorem getAPIURL_fixed_form (queryString : string) :
  (forall (format : string) (pretty noRedirect noHTML skip : bool),
     getAPIURL queryString (flagged format pretty noRedirect noHTML skip) =
     "https://api.duckduckgo.com/?q=" +:+ url.QueryEscape queryString
     +:+ "&format=" +:+ format
     +:+ "&pretty=" +:+ bit pretty
     +:+ "&no_redirect=" +:+ bit noRedirect
     +:+ "&no_html=" +:+ bit noHTML
     +:+ "&skip_disambig=" +:+ bit skip
     +:+ "&t=duckduckgo-answers")
  /\ (forall options : Options,
       getAPIURL queryString options =
       "https://api.duckduckgo.com/?q=" +:+ url.QueryEscape queryString
       +:+ "&format=" +:+ Format options
       +:+ "&pretty=" +:+ fmt.decimal (Pretty options)
       +:+ "&no_redirect=" +:+ fmt.decimal (NoRedirect options)
       +:+ "&no_html=" +:+ fmt.decimal (NoHTML options)
       +:+ "&skip_disambig=" +:+ fmt.decimal (SkipDisambig options)
       +:+ "&t=duckduckgo-answers").
Proof.
  split; [|apply getAPIURL_decimal].
  intros format pretty noRedirect noHTML skip.
  rewrite getAPIURL_decimal. unfold flagged.
  cbn [Format Pretty NoRedirect NoHTML SkipDisambig].
  now destruct pretty, noRedirect, noHTML, skip.
Qed.

(** The raw value of [q] in the URL is the escaped query, whatever the
    options hold. *)
Lemma rawParam_q (queryString : string) (options : Options) :
  url.rawParam "q" (getAPIURL queryString options)
  = Some (url.QueryEscape queryString).
Proof.
  rewrite getAPIURL_decimal. unfold url.QueryEscape.
  set (e := url.escape queryString).
  assert (Hhash : mem "#" e = false) by (now apply escape_free).
  assert (Hamp : mem "&" e = false) by (now apply escape_free).
  set (tail := Format options +:+ _).
  unfold url.rawParam, url.RawQuery.
  rewrite (Cut_app_notin "#" "https://api.duckduckgo.com/?q=") by reflexivity.
  rewrite (Cut_app_notin "#" e) by exact Hhash.
  rewrite (Cut_app_notin "#" "&format=") by reflexivity.
  destruct (strings.Cut "#" tail) as [b a]. cbn [fst snd].
  cbn -[strings.Split url.rawValue].
  change (String "q" (String "=" (e +:+ String "&" ?x)))
    with (("q=" +:+ e) +:+ String "&" x).
  rewrite Split_app_sep by (cbn; exact Hamp).
  cbn. reflexivity.
Qed.

(** C1: for every query string, empty or not, whatever bytes it holds, the
    [q] component of the URL that [getAPIURL] returns, percent-decoded by
    the rules of a URL query component, is the query string itself. *)
Theorem getAPIURL_query_roundtrip (queryString : string) (options : Options) :
  url.rawParam "q" (getAPIURL queryString options)
    = Some (url.QueryEscape queryString)
  /\ url.QueryUnescape (url.QueryEscape queryString) = inl queryString.
Proof.
  split; [apply rawParam_q | apply unescape_escape].
Qed.

(** ** The effect monad *)

Lemma bind_emit {B} (ev : event) (k : unit -> M B) (w : World) :
  bind (emit ev) k w =
  let '(t, w', r) := k tt w in (ev :: t, w', r).
Proof. unfold bind, emit. now destruct (k tt w) as [[t w'] r]. Qed.

Lemma bind_ret {A B} (a : A) (k : A -> M B) (w : World) :
  bind (ret a) k w = k a w.
Proof. unfold bind, ret. now destruct (k a w) as [[t w'] r]. Qed.

Lemma bind_panic {A B} (e : error) (k : A -> M B) (w : World) :
  bind (panic e) k w = ([], w, Panicked e).
Proof. reflexivity. Qed.

Lemma bind_done {A B} (m : M A) (k : A -> M B) (w w1 : World) t1 a :
  m w = (t1, w1, Done a) ->
  bind m k w = let '(t2, w2, r) := k a w1 in (t1 ++ t2, w2, r).
Proof. unfold bind. now intros ->. Qed.

Lemma bind_panicked {A B} (m : M A) (k : A -> M B) (w w1 : World) t1 e :
  m w = (t1, w1, Panicked e) -> bind m k w = (t1, w1, Panicked e).
Proof. unfold bind. now intros ->. Qed.

(** ** [printResponse] *)

Lemma colour_Green : colour "Green" = green.
Proof. reflexivity. Qed.
Lemma colour_Blue : colour "Blue" = blue.
Proof. reflexivity. Qed.
Lemma colour_White : colour "White" = white.
Proof. reflexivity. Qed.
Lemma colour_Reset : colour "Reset" = reset.
Proof. reflexivity. Qed.

Lemma Println2 (a b : string) (w : World) :
  Println [a; b] w = ([Stdout (a +:+ " " +:+ b +:+ nl)], w, Done tt).
Proof.
  unfold Println, emit, fmt.Sprintln. cbn [strings.Join]. rewrite ?append_assoc; reflexivity.
Qed.

(** One turn of the loop over the related topics. *)
Lemma topic_body (topics : list RelatedTopic) (key : nat) (t : RelatedTopic)
      (w : World) :
  topics !! key = Some t ->
  (t <- index topics key ;;
   Println [colour "Blue"; tab +:+ FirstURL t] ;;
   t <- index topics key ;;
   Println [colour "White"; tab +:+ Text t +:+ nl]) w
  = (topicLines t, w, Done tt).
Proof.
  intros H. unfold bind, index. rewrite H. cbn [ret].
  rewrite !Println2, colour_Blue, colour_White.
  unfold topicLines, urlLine, textLine. cbn [app].
  rewrite ?append_assoc; reflexivity.
Qed.

Lemma forRange_topics (done rest : list RelatedTopic) (w : World) :
  forRange (seq (length done) (length rest))
    (fun key =>
       t <- index (done ++ rest) key ;;
       Println [colour "Blue"; tab +:+ FirstURL t] ;;
       t <- index (done ++ rest) key ;;
       Println [colour "White"; tab +:+ Text t +:+ nl]) w
  = (flat_map topicLines rest, w, Done tt).
Proof.
  revert done. induction rest as [|t rest IH]; intros done; [reflexivity|].
  cbn [length seq forRange flat_map].
  unfold bind at 1.
  rewrite (topic_body _ _ t) by (now rewrite list_lookup_middle).
  specialize (IH (done ++ [t])).
  rewrite length_app, Nat.add_1_r, <- app_assoc in IH. cbn [app] in IH.
  now rewrite IH.
Qed.

(** The whole output of [printResponse], call by call. *)
Lemma printResponse_trace (input : Response) (w : World) :
  printResponse input w =
  ([Stdout (abstractLine input)] ++ infoSection input
     ++ [Stdout relatedHeader] ++ flat_map topicLines (RelatedTopics input)
     ++ [Stdout reset], w, Done tt).
Proof.
  pose proof (forRange_topics [] (RelatedTopics input) w) as Hloop.
  cbn [length app] in Hloop.
  assert (Habs : fmt.Sprintf (nl +:+ " %s " +:+ nl +:+ " " +:+ nl)
                   [fmt.ArgS (AbstractText input)] = abstractLine input).
  { unfold abstractLine. cbn. rewrite ?append_assoc; reflexivity. }
  unfold printResponse, Printf. rewrite Habs.
  set (loop := forRange _ _) in *.
  unfold bind, infoSection.
  destruct (String.eqb (AbstractURL input) "") eqn:E; cbn [negb emit ret].
  - rewrite Println2, Hloop. unfold Print, fmt.Sprint, emit. cbn [strings.Join].
    rewrite colour_Reset, colour_Green. reflexivity.
  - rewrite !Println2, Hloop. unfold Print, fmt.Sprint, emit. cbn [strings.Join].
    rewrite colour_Reset, colour_Green, colour_Blue. cbn [app].
    unfold infoHeader, infoLine, relatedHeader.
    rewrite ?append_assoc; reflexivity.
Qed.

Lemma header_not_topic (h : string) (topics : list RelatedTopic) :
  (forall t, h <> urlLine t) -> (forall t, h <> textLine t) ->
  ~ In (Stdout h) (flat_map topicLines topics).
Proof.
  intros Hu Ht Hin. apply in_flat_map in Hin as (t & _ & Hin).
  destruct Hin as [E | [E | []]]; injection E as E; symmetry in E.
  - exact (Hu t E).
  - exact (Ht t E).
Qed.

Lemma infoHeader_not_topic (topics : list RelatedTopic) :
  ~ In (Stdout infoHeader) (flat_map topicLines topics).
Proof. apply header_not_topic; intros t; discriminate. Qed.

(** C7: for every decoded response, the Info section (the header line
    [More info:] and then the line of the abstract URL) is printed if and
    only if [AbstractURL] is not empty; it comes right after the abstract.
    For an empty [AbstractURL] the header is nowhere in the output. *)
Theorem printResponse_info_section (input : Response) (w : World) :
  (In (Stdout infoHeader) (trace (printResponse input) w)
     <-> AbstractURL input <> "")
  /\ (AbstractURL input <> "" ->
      exists rest,
        trace (printResponse input) w =
        Stdout (abstractLine input) :: Stdout infoHeader
          :: Stdout (infoLine (AbstractURL input)) :: rest)
  /\ (AbstractURL input = "" ->
      trace (printResponse input) w =
      Stdout (abstractLine input) :: Stdout relatedHeader
        :: flat_map topicLines (RelatedTopics input) ++ [Stdout reset]).
Proof.
  unfold trace. rewrite printResponse_trace. cbn [fst]. unfold infoSection.
  destruct (String.eqb (AbstractURL input) "") eqn:E.
  - apply String.eqb_eq in E. split; [split|split].
    + cbn [app]. intros [H | [H | H]]; try discriminate.
      apply in_app_or in H as [H | [H | []]]; [|discriminate].
      now apply infoHeader_not_topic in H.
    + intros H. contradiction.
    + intros H. contradiction.
    + reflexivity.
  - apply String.eqb_neq in E. split; [split|split].
    + intros _. exact E.
    + intros _. cbn. right. now left.
    + intros _. eexists. reflexivity.
    + intros H. contradiction.
Qed.

(** C8: for every decoded response the header [Related topics: ] is
    printed, exactly once; after it come, for each related topic in the
    order of the payload, its URL line and then its description line (none
    for an empty sequence), and the colour reset code is the last thing
    written. *)
Theorem printResponse_related_topics (input : Response) (w : World) :
  exists before,
    printResponse input w =
    (before ++ [Stdout relatedHeader]
       ++ flat_map (fun t => [Stdout (urlLine t); Stdout (textLine t)])
            (RelatedTopics input)
       ++ [Stdout reset], w, Done tt)
    /\ ~ In (Stdout relatedHeader) before
    /\ ~ In (Stdout relatedHeader)
         (flat_map (fun t => [Stdout (urlLine t); Stdout (textLine t)])
            (RelatedTopics input) ++ [Stdout reset]).
Proof.
  exists ([Stdout (abstractLine input)] ++ infoSection input).
  rewrite printResponse_trace, <- !app_assoc. split; [reflexivity|]. split.
  - unfold infoSection.
    destruct (String.eqb (AbstractURL input) ""); cbn;
      intuition discriminate.
  - intros H. apply in_app_or in H as [H | [H | []]]; [|discriminate].
    revert H. apply header_not_topic; intros t; discriminate.
Qed.

(** ** Slices *)

Lemma substring_all (s : string) : String.substring 0 (String.length s) s = s.
Proof. induction s as [|c s IH]; simpl; [reflexivity | now rewrite IH]. Qed.

Lemma substring_app_drop (a b : string) :
  String.substring (String.length a) (String.length b) (a +:+ b) = b.
Proof. induction a as [|c a IH]; simpl; [apply substring_all | exact IH]. Qed.

Lemma length_append (a b : string) :
  String.length (a +:+ b) = (String.length a + String.length b)%nat.
Proof. induction a as [|c a IH]; simpl; [reflexivity | now rewrite IH]. Qed.

Lemma slice_app_drop (a b : string) :
  slice (a +:+ b) (len a) (len (a +:+ b)) = b.
Proof.
  unfold slice, len. rewrite length_append, Nat2Z.id.
  replace (Z.to_nat _) with (String.length b) by lia.
  apply substring_app_drop.
Qed.

Lemma slice_tail (c : ascii) (t : string) :
  slice (String c t) 1 (len (String c t)) = t.
Proof. exact (slice_app_drop (String c "") t). Qed.



Lemma Cut_found (sep : ascii) (s l rest : string) :
  strings.Cut sep s = (l, Some rest) ->
  s = l +:+ String sep rest /\ mem sep l = false.
Proof.
  revert l. induction s as [|c s IH]; intros l; simpl; [discriminate|].
  destruct (Ascii.eqb c sep) eqn:E.
  - intros [= <- <-]. apply Ascii.eqb_eq in E. now subst c.
  - destruct (strings.Cut sep s) as [b a]. intros [= <- ->].
    destruct (IH b eq_refl) as [-> Hb]. simpl.
    now rewrite Ascii.eqb_sym, E, Hb.
Qed.

Lemma Cut_missing (sep : ascii) (s l : string) :
  strings.Cut sep s = (l, None) -> l = s /\ mem sep s = false.
Proof.
  revert l. induction s as [|c s IH]; intros l; simpl.
  - now intros [= <-].
  - destruct (Ascii.eqb c sep) eqn:E; [discriminate|].
    destruct (strings.Cut sep s) as [b a]. intros [= <- ->].
    destruct (IH b eq_refl) as [-> Hb].
    now rewrite Ascii.eqb_sym, E, Hb.
Qed.

Lemma len_cons_nonzero (c : ascii) (t : string) :
  (len (String c t) =? 0) = false.
Proof. apply Z.eqb_neq. unfold len. cbn [String.length]. lia. Qed.

(** ** [strings.TrimSpace] on a line of white space *)

Lemma IsSpace_ascii (c : ascii) :
  (b2z c <? utf8.RuneSelf) = true ->
  unicode.IsSpace (b2z c) = strings.asciiSpace c.
Proof. by_byte c. Qed.

Lemma DecodeRune_ascii (c : ascii) (t : string) :
  (b2z c <? utf8.RuneSelf) = true ->
  utf8.DecodeRuneInString (String c t) = (b2z c, 1).
Proof. intros H. unfold utf8.DecodeRuneInString. now rewrite H. Qed.

Lemma DecodeRune_width (s : string) :
  0 <= (utf8.DecodeRuneInString s).2.
Proof.
  unfold utf8.DecodeRuneInString.
  repeat (case_match; cbn [snd]; try lia).
Qed.

Lemma indexFunc_from_none (n : nat) (s : string) (i j : Z) f truth :
  0 <= i -> 0 <= j ->
  strings.indexFunc_from n s i f truth = -1 ->
  strings.indexFunc_from n s j f truth = -1.
Proof.
  revert s i j. induction n as [|n IH]; intros s i j Hi Hj; [reflexivity|].
  cbn [strings.indexFunc_from].
  destruct (len s =? 0); [reflexivity|].
  pose proof (DecodeRune_width s) as Hw.
  destruct (utf8.DecodeRuneInString s) as [r size]. cbn [snd] in Hw.
  destruct (Bool.eqb (f r) truth); [lia|].
  apply IH; lia.
Qed.

(** [TrimSpace] of a blank line is the empty string. *)
Lemma TrimSpace_blank (line : string) :
  blank line -> strings.TrimSpace line = "".
Proof.
  unfold blank, strings.indexFunc.
  induction line as [|c t IH]; [reflexivity|].
  intros H. cbn [strings.TrimSpace].
  destruct (b2z c >=? utf8.RuneSelf) eqn:Hc.
  - unfold strings.TrimFunc, strings.TrimLeftFunc, strings.indexFunc.
    rewrite H. reflexivity.
  - assert (Hlt : (b2z c <? utf8.RuneSelf) = true) by lia.
    revert H. cbn [String.length strings.indexFunc_from].
    rewrite len_cons_nonzero.
    rewrite (DecodeRune_ascii c t Hlt), (IsSpace_ascii c Hlt), slice_tail.
    destruct (strings.asciiSpace c); cbn [Bool.eqb]; [|discriminate].
    intros H. apply IH. revert H. apply indexFunc_from_none; lia.
Qed.

(** A line all of whose bytes are ASCII white space is blank. *)
Lemma blank_ascii (line : string) :
  (forall c, mem c line = true -> strings.asciiSpace c = true) -> blank line.
Proof.
  unfold blank, strings.indexFunc.
  induction line as [|c t IH]; [reflexivity|].
  intros H. cbn [String.length strings.indexFunc_from].
  rewrite len_cons_nonzero.
  assert (Hc : strings.asciiSpace c = true).
  { apply H. simpl. now rewrite ascii_eqb_refl. }
  assert (Hlt : (b2z c <? utf8.RuneSelf) = true).
  { revert Hc. clear. by_byte c. }
  rewrite (DecodeRune_ascii c t Hlt), (IsSpace_ascii c Hlt), Hc, slice_tail.
  cbn [Bool.eqb].
  apply (indexFunc_from_none _ _ 0); [lia | lia |].
  apply IH. intros d Hd. apply H. simpl. now rewrite Hd, orb_true_r.
Qed.

(** ** [searchPrompt] and the interactive loop *)

Lemma readUntil_delim (delim : ascii) (acc : string) (blocks : list string)
      (line : string) (rest : list string) :
  bufio.readUntil delim acc blocks = (line, None, rest) ->
  exists body, line = body +:+ String delim "".
Proof.
  revert acc. induction blocks as [|b blocks IH]; intros acc; cbn.
  - discriminate.
  - destruct (strings.Cut delim b) as [before [after|]].
    + intros [= <- <-]. exists (acc +:+ before). now rewrite append_assoc.
    + apply IH.
Qed.

(** What [searchPrompt] does, for each result of the read. *)
Lemma searchPrompt_run (w : World) (line : string) (err : option error)
      (rest : list string) :
  bufio.readUntil LF "" (stdin w) = (line, err, rest) ->
  searchPrompt w =
  ([Stdout prompt], afterRead w rest,
   Done match err with
        | Some e => ("", Some e)
        | None =>
            if String.eqb (strings.TrimSpace line) "" then ("", Some invalidInput)
            else (line, None)
        end).
Proof.
  intros H. unfold searchPrompt, bind, Print, emit, bufio.ReadString.
  rewrite H. cbn [fmt.Sprint strings.Join].
  destruct err as [e|]; [reflexivity|].
  now destruct (String.eqb (strings.TrimSpace line) "").
Qed.

(** C2, as the code has it: when one prompt reads a line that is not blank,
    [searchPrompt] returns that line as it was read, its terminating newline
    included, and the loop passes exactly that string to the request
    pipeline. *)
Theorem searchPrompt_returns_line
  (network : nat -> string -> Body + error)
  (json_Unmarshal : string -> Response -> Response * option error)
  (w : World) (line : string) (rest : list string) :
  bufio.readUntil LF "" (stdin w) = (line, None, rest) ->
  strings.TrimSpace line <> "" ->
  searchPrompt w = ([Stdout prompt], afterRead w rest, Done (line, None))
  /\ (exists body, line = body +:+ nl)
  /\ iteration network json_Unmarshal w =
     let '(t, w', r) :=
       processAPIRequest network json_Unmarshal line queryOptions
                         (afterRead w rest) in
     (Stdout prompt :: t, w', r).
Proof.
  intros Hread Hline.
  pose proof (searchPrompt_run w line None rest Hread) as Hrun.
  apply String.eqb_neq in Hline. rewrite Hline in Hrun.
  split; [exact Hrun|]. split; [exact (readUntil_delim _ _ _ _ _ Hread)|].
  unfold iteration, bind. rewrite Hrun.
  now destruct (processAPIRequest _ _ _ _ _) as [[t w'] r].
Qed.

(** C4: when one prompt reads a line that is empty or holds white space
    only, [searchPrompt] returns the input error; that turn of the loop
    prints the prompt and the error and nothing else, issues no request (it
    builds no URL and the count of requests stays), and the loop goes on to
    the next prompt. *)
Theorem blank_line_is_skipped
  (network : nat -> string -> Body + error)
  (json_Unmarshal : string -> Response -> Response * option error)
  (w : World) (line : string) (rest : list string) :
  bufio.readUntil LF "" (stdin w) = (line, None, rest) ->
  blank line ->
  searchPrompt w =
    ([Stdout prompt], afterRead w rest, Done ("", Some invalidInput))
  /\ iteration network json_Unmarshal w =
     ([Stdout prompt; Stdout ("Invalid input" +:+ nl)], afterRead w rest,
      Done tt)
  /\ requests (afterRead w rest) = requests w
  /\ forall n,
       interactive network json_Unmarshal (S n) w =
       let '(t, w', r) :=
         interactive network json_Unmarshal n (afterRead w rest) in
       (Stdout prompt :: Stdout ("Invalid input" +:+ nl) :: t, w', r).
Proof.
  intros Hread Hblank.
  pose proof (searchPrompt_run w line None rest Hread) as Hrun.
  rewrite (TrimSpace_blank line Hblank) in Hrun. cbn [String.eqb] in Hrun.
  assert (Hit : iteration network json_Unmarshal w =
                ([Stdout prompt; Stdout ("Invalid input" +:+ nl)],
                 afterRead w rest, Done tt)).
  { unfold iteration, bind. rewrite Hrun. reflexivity. }
  split; [exact Hrun|]. split; [exact Hit|]. split; [reflexivity|].
  intros n. cbn [interactive]. unfold bind at 1. rewrite Hit.
  now destruct (interactive _ _ _ _) as [[t w'] r].
Qed.

(** ** [responseToString] *)

Lemma lines_Cut (s : string) :
  lines s =
  match strings.Cut LF s with
  | (l, Some rest) => l :: lines rest
  | (_, None) => match s with EmptyString => [] | _ => [s] end
  end.
Proof.
  induction s as [|c t IH]; [reflexivity|].
  cbn [lines strings.Cut]. destruct (Ascii.eqb c LF); [reflexivity|].
  rewrite IH. destruct (strings.Cut LF t) as [b [rest|]]; [reflexivity|].
  now destruct t.
Qed.

Lemma Cut_slice (s l rest : string) :
  strings.Cut LF s = (l, Some rest) ->
  slice s (len l + 1) (len s) = rest
  /\ String.length s = S (String.length l + String.length rest).
Proof.
  intros H. apply Cut_found in H as [-> _]. split.
  - change (l +:+ String LF rest) with (l +:+ (String LF "" +:+ rest)).
    rewrite <- append_assoc.
    replace (len l + 1) with (len (l +:+ String LF "")).
    + apply slice_app_drop.
    + unfold len. rewrite length_append. cbn [String.length]. lia.
  - rewrite length_append. cbn [String.length]. lia.
Qed.

Lemma ScanLines_more (p : string) :
  bufio.ScanLines p false =
  match strings.Cut LF p with
  | (l, Some _) => (len l + 1, Some (bufio.dropCR l))
  | (_, None) => (0, None)
  end.
Proof. unfold bufio.ScanLines. cbn [andb]. now destruct (strings.Cut LF p) as [l [r|]]. Qed.

(** The loop over a body all of whose lines fit: it collects the lines and
    ends with the failure of the source as its error. *)
Lemma scanLoop_lines (n : nat) (p : string) (src : option error) (tk : string)
      (acc : list string) :
  (String.length p + 2 <= n)%nat ->
  forallb short (lines p) = true ->
  scanLoop n {| bufio.pending := p; bufio.source := src; bufio.tok := tk;
                bufio.err := None |} acc
  = ({| bufio.pending := ""; bufio.source := src; bufio.tok := "";
        bufio.err := src |}, acc ++ map bufio.dropCR (lines p)).
Proof.
  revert p tk acc. induction n as [|n IH]; intros p tk acc Hn Hshort; [lia|].
  cbn [scanLoop]. unfold bufio.Scan. cbn [bufio.pending bufio.source bufio.err].
  rewrite ScanLines_more. rewrite lines_Cut in Hshort |- *.
  destruct (strings.Cut LF p) as [l [rest|]] eqn:HC.
  - cbn [forallb] in Hshort. apply andb_true_iff in Hshort as [Hl Hrest].
    unfold short in Hl.
    destruct (len l + 1 >? bufio.MaxScanTokenSize) eqn:Hadv; [lia|].
    destruct (Cut_slice _ _ _ HC) as [-> Hlen].
    unfold bufio.Text. cbn [bufio.tok].
    rewrite IH by (lia || exact Hrest).
    now rewrite <- app_assoc.
  - destruct p as [|c p].
    + cbn. now rewrite app_nil_r.
    + cbn [forallb] in Hshort. rewrite andb_true_r in Hshort.
      unfold short in Hshort.
      destruct (len (String c p) >=? bufio.MaxScanTokenSize) eqn:Hfull; [lia|].
      unfold bufio.ScanLines. rewrite HC, len_cons_nonzero. cbn [andb].
      unfold bufio.Text. cbn [bufio.tok].
      rewrite IH by (cbn in *; lia || reflexivity).
      cbn [lines map]. now rewrite app_nil_r.
Qed.

(** The loop over a body one of whose lines does not fit ends with
    [ErrTooLong]. *)
Lemma scanLoop_too_long (n : nat) (p : string) (src : option error)
      (tk : string) (acc : list string) :
  (String.length p + 2 <= n)%nat ->
  forallb short (lines p) = false ->
  bufio.err (scanLoop n {| bufio.pending := p; bufio.source := src;
                           bufio.tok := tk; bufio.err := None |} acc).1
  = Some ErrTooLong.
Proof.
  revert p tk acc. induction n as [|n IH]; intros p tk acc Hn Hlong; [lia|].
  cbn [scanLoop]. unfold bufio.Scan. cbn [bufio.pending bufio.source bufio.err].
  rewrite ScanLines_more. rewrite lines_Cut in Hlong.
  destruct (strings.Cut LF p) as [l [rest|]] eqn:HC.
  - cbn [forallb] in Hlong. unfold short at 1 in Hlong.
    destruct (len l + 1 >? bufio.MaxScanTokenSize) eqn:Hadv; [reflexivity|].
    destruct (Cut_slice _ _ _ HC) as [-> Hlen].
    replace (len l <? bufio.MaxScanTokenSize) with true in Hlong by lia.
    apply IH; [lia | exact Hlong].
  - destruct p as [|c p]; [discriminate|].
    cbn [forallb] in Hlong. rewrite andb_true_r in Hlong. unfold short in Hlong.
    destruct (len (String c p) >=? bufio.MaxScanTokenSize) eqn:Hfull;
      [reflexivity | lia].
Qed.

Lemma Join_empty_sep (l : list string) : strings.Join l "" = foldr String.append "" l.
Proof.
  induction l as [|x [|y l] IH]; cbn [strings.Join foldr] in *.
  - reflexivity.
  - now rewrite append_nil_r.
  - now rewrite IH.
Qed.

(** What [responseToString] does, for every body. *)
Lemma responseToString_run (response : Body) (w : World) :
  responseToString response w =
  match readError response with
  | Some e => ([], w, Panicked e)
  | None => ([Close], w, Done (textOf response))
  end.
Proof.
  unfold responseToString, readError, bufio.NewScanner.
  destruct (forallb short (lines (content response))) eqn:Hs.
  - rewrite scanLoop_lines by (lia || exact Hs).
    unfold bufio.Err. cbn [bufio.err].
    assert (Hok : (emit Close ;;
                   ret (strings.Join ([""] ++ map bufio.dropCR (lines (content response))) "")) w
                  = ([Close], w, Done (textOf response))).
    { unfold bind, emit, ret. cbn [app]. rewrite Join_empty_sep. reflexivity. }
    destruct (failure response) as [[]|]; first [exact Hok | reflexivity].
  - pose proof (scanLoop_too_long (S (S (String.length (content response))))
                  (content response) (failure response) "" [""]) as H.
    destruct (scanLoop _ _ _) as [sc strs]. cbn [fst] in H.
    unfold bufio.Err. rewrite H by (lia || exact Hs). reflexivity.
Qed.




Lemma get_last (l : string) (c : ascii) :
  String.get (String.length l) (l +:+ String c "") = Some c.
Proof. induction l as [|d l IH]; [reflexivity | exact IH]. Qed.

Lemma substring_prefix (l r : string) :
  String.substring 0 (String.length l) (l +:+ r) = l.
Proof.
  induction l as [|d l IH]; cbn; [now destruct r | now rewrite IH].
Qed.

(** [dropCR] removes one carriage return at the end, and nothing else. *)
Lemma dropCR_CR (l : string) : bufio.dropCR (l +:+ String CR "") = l.
Proof.
  unfold bufio.dropCR, byteAt, slice, len.
  rewrite length_append. cbn [String.length].
  replace (Z.to_nat (Z.of_nat (String.length l + 1) - 1))
    with (String.length l) by lia.
  rewrite get_last, ascii_eqb_refl.
  replace (Z.of_nat (String.length l + 1) >? 0) with true
    by (symmetry; apply Z.gtb_lt; lia).
  cbn [andb]. rewrite Z.sub_0_r.
  replace (Z.to_nat (Z.of_nat (String.length l + 1) - 1))
    with (String.length l) by lia.
  apply substring_prefix.
Qed.

Lemma ends_with_get (l : string) (c : ascii) :
  String.get (String.length l - 1) l = Some c -> l <> "" ->
  l = String.substring 0 (String.length l - 1) l +:+ String c "".
Proof.
  induction l as [|d l IH]; [congruence|]. intros H _.
  destruct l as [|e l].
  - cbn in H |- *. now injection H as ->.
  - cbn [String.length Nat.sub] in *. rewrite Nat.sub_0_r in *.
    cbn [String.substring String.append]. f_equal.
    apply IH; [exact H | discriminate].
Qed.

Lemma dropCR_prefix (l : string) :
  bufio.dropCR l = l \/ l = bufio.dropCR l +:+ String CR "".
Proof.
  unfold bufio.dropCR.
  destruct ((len l >? 0) && Ascii.eqb (byteAt l (len l - 1)) CR) eqn:E;
    [right | now left].
  apply andb_true_iff in E as [Hpos Hcr]. apply Ascii.eqb_eq in Hcr.
  unfold slice, byteAt, len in *. rewrite Z.sub_0_r.
  change (Z.to_nat 0) with 0%nat.
  replace (Z.to_nat (Z.of_nat (String.length l) - 1))
    with (String.length l - 1)%nat in * by lia.
  apply ends_with_get.
  - destruct (String.get _ l) as [c|]; [now subst c | discriminate].
  - intros ->. cbn in Hpos. discriminate.
Qed.


(** ** The request pipeline *)

(** What [processAPIRequest] does, stage by stage. *)
Lemma processAPIRequest_run
  (network : nat -> string -> Body + error)
  (json_Unmarshal : string -> Response -> Response * option error)
  (query : string) (options : Options) (w : World) :
  processAPIRequest network json_Unmarshal query options w =
  let queryURL := getAPIURL query options in
  match network (requests w) queryURL with
  | inr e => ([Get queryURL], afterGet w, Panicked e)
  | inl response =>
      match readError response with
      | Some e => ([Get queryURL], afterGet w, Panicked e)
      | None =>
          match json_Unmarshal (textOf response) zeroResponse with
          | (_, Some e) => ([Get queryURL; Close], afterGet w, Panicked e)
          | (parsed, None) =>
              ([Get queryURL; Close] ++ rendering parsed, afterGet w, Done tt)
          end
      end
  end.
Proof.
  cbv zeta. unfold processAPIRequest, queryAPI.
  unfold bind at 1. unfold bind at 1. unfold http_Get. fold (afterGet w).
  destruct (network (requests w) (getAPIURL query options)) as [response|e];
    [|reflexivity].
  cbn [ret]. unfold bind at 1. rewrite responseToString_run.
  destruct (readError response) as [e|]; [reflexivity|].
  unfold bind at 1. unfold unmarshalResponse. fold zeroResponse.
  destruct (json_Unmarshal (textOf response) zeroResponse) as [parsed [e|]];
    [reflexivity|].
  cbn [ret]. now rewrite printResponse_trace.
Qed.

Lemma rendering_stdout (input : Response) :
  forallb isStdout (rendering input) = true.
Proof.
  unfold rendering, infoSection. rewrite !forallb_app.
  assert (H : forallb isStdout (flat_map topicLines (RelatedTopics input)) = true).
  { induction (RelatedTopics input) as [|t ts IH]; [reflexivity | exact IH]. }
  rewrite H. now destruct (String.eqb (AbstractURL input) "").
Qed.

Lemma gets_stdout (t : list event) : forallb isStdout t = true -> gets t = [].
Proof.
  induction t as [|ev t IH]; [reflexivity|].
  cbn [forallb]. intros H. apply andb_true_iff in H as [Hev Ht].
  destruct ev; try discriminate. exact (IH Ht).
Qed.

Lemma gets_app (a b : list event) : gets (a ++ b) = gets a ++ gets b.
Proof.
  induction a as [|ev a IH]; [reflexivity|].
  destruct ev; cbn [app]; unfold gets in *; cbn [omap list_omap];
    rewrite IH; reflexivity.
Qed.




(** ** Concrete runs *)

(** Witness of [searchPrompt_returns_line]: the user types [github]. *)
Lemma searchPrompt_returns_line_witness :
  searchPrompt (typing ("github" +:+ nl))
    = ([Stdout prompt], afterRead (typing ("github" +:+ nl)) [],
       Done ("github" +:+ nl, None))
  /\ (exists body, "github" +:+ nl = body +:+ nl)
  /\ iteration (serving htmlBody) json.Unmarshal (typing ("github" +:+ nl)) =
     let '(t, w', r) :=
       processAPIRequest (serving htmlBody) json.Unmarshal ("github" +:+ nl)
         queryOptions (afterRead (typing ("github" +:+ nl)) []) in
     (Stdout prompt :: t, w', r).
Proof.
  apply (searchPrompt_returns_line (serving htmlBody) json.Unmarshal
           (typing ("github" +:+ nl)) ("github" +:+ nl) []).
  - reflexivity.
  - vm_compute. discriminate.
Defined.

(** C2 as stated fails: for the line [github] and its newline,
    [searchPrompt] returns the line with the newline, not [github]. *)
Lemma searchPrompt_keeps_newline :
  (searchPrompt (typing ("github" +:+ nl))).2 = Done ("github" +:+ nl, None)
  /\ (searchPrompt (typing ("github" +:+ nl))).2 <> Done ("github", None).
Proof. split; [reflexivity | vm_compute; discriminate]. Qed.

(** Witness of [blank_line_is_skipped]: two spaces, a tab and the newline. *)
Lemma blank_line_is_skipped_witness :
  blank ("  " +:+ tab +:+ nl)
  /\ iteration (serving htmlBody) json.Unmarshal (typing ("  " +:+ tab +:+ nl))
     = ([Stdout prompt; Stdout ("Invalid input" +:+ nl)],
        afterRead (typing ("  " +:+ tab +:+ nl)) [], Done tt).
Proof.
  assert (Hb : blank ("  " +:+ tab +:+ nl)) by reflexivity.
  split; [exact Hb|].
  exact (proj1 (proj2 (blank_line_is_skipped (serving htmlBody) json.Unmarshal
                         (typing ("  " +:+ tab +:+ nl)) ("  " +:+ tab +:+ nl) []
                         eq_refl Hb))).
Defined.






(** *** The library models on sample inputs *)

Example QueryEscape_sample :
  url.QueryEscape ("C++ & caf" +:+ eacute +:+ "?")
  = "C%2B%2B+%26+caf%C3%A9%3F".
Proof. reflexivity. Qed.

Example QueryUnescape_sample :
  url.QueryUnescape "C%2b%2B+%26+Go%3F" = inl "C++ & Go?"
  /\ url.QueryUnescape "100%" = inr (url.mkEscapeError "%")
  /\ url.QueryUnescape "a%zzb" = inr (url.mkEscapeError "%zz").
Proof. repeat split. Qed.

Example getAPIURL_sample :
  getAPIURL "duck duck" queryOptions
  = "https://api.duckduckgo.com/?q=duck+duck&format=json&pretty=1&no_redirect=1&no_html=1&skip_disambig=1&t=duckduckgo-answers".
Proof. reflexivity. Qed.

Example TrimSpace_sample :
  strings.TrimSpace ("  go lang " +:+ tab +:+ nl) = "go lang"
  /\ strings.TrimSpace (NBSP +:+ " x " +:+ NBSP +:+ nl) = "x"
  /\ strings.TrimSpace (" " +:+ NBSP +:+ String CR nl) = "".
Proof. repeat split. Qed.

Example searchPrompt_at_end_of_input :
  searchPrompt idle = ([Stdout prompt], idle, Done ("", Some EOF))
  /\ iteration (serving htmlBody) json.Unmarshal idle
     = ([Stdout prompt; Stdout ("EOF" +:+ nl)], idle, Done tt).
Proof. split; reflexivity. Qed.

(** The first testable body of the specification: no Info section, the
    header of the related topics and no entry. *)
Example hello_is_rendered :
  json.Unmarshal (textOf helloBody) zeroResponse
  = ({| AbstractText := "Hello"; AbstractURL := ""; RelatedTopics := [] |}, None)
  /\ main (serving helloBody) json.Unmarshal (oneShot "hello") 0 idle
     = ([Get (getAPIURL "hello" queryOptions); Close;
         Stdout (nl +:+ " Hello " +:+ nl +:+ " " +:+ nl);
         Stdout relatedHeader; Stdout reset], afterGet idle, Exited 1).
Proof. split; vm_compute; reflexivity. Qed.

(** The second one: two related topics, in the order of the payload, the
    URL of each before its text. *)
Example two_topics_are_rendered :
  trace (processAPIRequest (serving twoTopicsBody) json.Unmarshal "x"
           queryOptions) idle
  = [Get (getAPIURL "x" queryOptions); Close;
     Stdout (nl +:+ " X " +:+ nl +:+ " " +:+ nl);
     Stdout infoHeader; Stdout (infoLine "http://example.com");
     Stdout relatedHeader;
     Stdout (blue +:+ " " +:+ tab +:+ "http://a" +:+ nl);
     Stdout (white +:+ " " +:+ tab +:+ "A" +:+ nl +:+ nl);
     Stdout (blue +:+ " " +:+ tab +:+ "http://b" +:+ nl);
     Stdout (white +:+ " " +:+ tab +:+ "B" +:+ nl +:+ nl);
     Stdout reset].
Proof. vm_compute. reflexivity. Qed.

(** Two turns of the interactive loop: a blank line, then a query. *)
Example two_turns :
  interactive (serving helloBody) json.Unmarshal 2
    {| stdin := [" " +:+ nl; "hello" +:+ nl]; requests := 0 |}
  = ([Stdout prompt; Stdout ("Invalid input" +:+ nl);
      Stdout prompt; Get (getAPIURL ("hello" +:+ nl) queryOptions); Close;
      Stdout (nl +:+ " Hello " +:+ nl +:+ " " +:+ nl);
      Stdout relatedHeader; Stdout reset],
     {| stdin := []; requests := 1 |}, Done tt).
Proof. vm_compute. reflexivity. Qed.

(** The reader made for one prompt takes a whole block; what follows the
    newline in that block is lost with the reader. *)
Example ReadString_drops_the_rest_of_the_block :
  bufio.ReadString LF {| stdin := ["go" +:+ nl +:+ "rust" +:+ nl]; requests := 0 |}
  = ([], idle, Done ("go" +:+ nl, None)).
Proof. reflexivity. Qed.

(** A line of 65536 bytes does not fit the buffer of the scanner. *)
Example line_too_long :
  readError (whole (String.concat "" (repeat "0123456789abcdef" 4096)))
  = Some ErrTooLong
  /\ readError (whole (String.concat "" (repeat "0123456789abcdef" 4095)
                       +:+ "0123456789abcde" +:+ nl))
     = None.
Proof. split; vm_compute; reflexivity. Qed.

(* ===================================================================== *)
(** * Further properties of the code *)

(** ** [getAPIURL] *)

Lemma escape_app (a b : string) :
  url.escape (a +:+ b) = url.escape a +:+ url.escape b.
Proof.
  induction a as [|c a IH]; [reflexivity|].
  cbn [String.append url.escape]. rewrite IH.
  destruct (Ascii.eqb c " "); [reflexivity|].
  now destruct (url.shouldEscape c).
Qed.

Lemma escape_injective (a b : string) : url.escape a = url.escape b -> a = b.
Proof.
  intros H. apply (f_equal url.unescape) in H.
  rewrite !unescape_escape in H. now injection H.
Qed.

(** X1: two different queries never give the same URL, whatever the options
    of either. *)
Theorem getAPIURL_separates_queries
  (query1 query2 : string) (options1 options2 : Options) :
  query1 <> query2 ->
  getAPIURL query1 options1 <> getAPIURL query2 options2.
Proof.
  intros Hne Heq. apply Hne, escape_injective.
  pose proof (rawParam_q query1 options1) as H1.
  pose proof (rawParam_q query2 options2) as H2.
  rewrite Heq, H2 in H1. now injection H1.
Qed.

Lemma getAPIURL_separates_queries_witness :
  "go" <> "Go" /\ getAPIURL "go" queryOptions <> getAPIURL "Go" queryOptions.
Proof.
  assert (H : "go" <> "Go") by discriminate.
  split; [exact H|].
  exact (getAPIURL_separates_queries "go" "Go" queryOptions queryOptions H).
Defined.

(** X2: with the options of [main], the query string of the URL has the
    same seven fields for every query: the text of the query can neither
    add a parameter nor change one of the fixed ones. *)
Theorem getAPIURL_seven_fields (queryString : string) :
  strings.Split "&" (url.RawQuery (getAPIURL queryString queryOptions))
  = [ "q=" +:+ url.QueryEscape queryString; "format=json"; "pretty=1";
      "no_redirect=1"; "no_html=1"; "skip_disambig=1";
      "t=duckduckgo-answers" ]
  /\ url.rawParam "format" (getAPIURL queryString queryOptions) = Some "json"
  /\ url.rawParam "t" (getAPIURL queryString queryOptions)
     = Some "duckduckgo-answers".
Proof.
  assert (H : strings.Split "&"
                (url.RawQuery (getAPIURL queryString queryOptions))
              = [ "q=" +:+ url.QueryEscape queryString; "format=json";
                  "pretty=1"; "no_redirect=1"; "no_html=1"; "skip_disambig=1";
                  "t=duckduckgo-answers" ]).
  { rewrite getAPIURL_decimal. unfold url.QueryEscape.
    set (e := url.escape queryString).
    assert (Hhash : mem "#" e = false) by (now apply escape_free).
    assert (Hamp : mem "&" e = false) by (now apply escape_free).
    unfold url.RawQuery.
    rewrite (Cut_app_notin "#" "https://api.duckduckgo.com/?q=") by reflexivity.
    rewrite (Cut_app_notin "#" e) by exact Hhash.
    cbn -[strings.Split].
    change (String "q" (String "=" (e +:+ String "&" ?x)))
      with (("q=" +:+ e) +:+ String "&" x).
    rewrite Split_app_sep by (cbn; exact Hamp).
    reflexivity. }
  split; [exact H|]. unfold url.rawParam. rewrite H. split; reflexivity.
Qed.

Lemma allBytes_app (p : ascii -> bool) (a b : string) :
  allBytes p (a +:+ b) = allBytes p a && allBytes p b.
Proof.
  induction a as [|c a IH]; [reflexivity|].
  cbn [String.append allBytes]. now rewrite IH, andb_assoc.
Qed.

Lemma urlByte_hexdigit_hi (c : ascii) :
  urlByte (url.hexdigit (Z.shiftr (b2z c) 4)) = true.
Proof. unfold urlByte. now rewrite hexdigit_hi_plain. Qed.

Lemma urlByte_hexdigit_lo (c : ascii) :
  urlByte (url.hexdigit (Z.land (b2z c) 15)) = true.
Proof. unfold urlByte. now rewrite hexdigit_lo_plain. Qed.

Lemma escape_urlBytes (s : string) : allBytes urlByte (url.escape s) = true.
Proof.
  induction s as [|c s IH]; [reflexivity|].
  cbn [url.escape]. destruct (Ascii.eqb c " ").
  - cbn [allBytes]. now rewrite IH.
  - destruct (url.shouldEscape c) eqn:Hc; cbn [allBytes].
    + now rewrite urlByte_hexdigit_hi, urlByte_hexdigit_lo, IH.
    + unfold urlByte at 1. now rewrite Hc, IH.
Qed.

(** X3: with the options of [main], the URL holds no byte that a URL may
    not hold as it stands: every byte of it is a letter, a digit, one of
    [-_.~], or one of [%+:/?&=]; spaces, control bytes, newlines and bytes
    above 127 of the query only occur escaped. *)
Theorem getAPIURL_bytes (queryString : string) :
  allBytes urlByte (getAPIURL queryString queryOptions) = true
  /\ (forall c, urlByte c = true -> 32 < b2z c < 127).
Proof.
  split.
  - rewrite getAPIURL_decimal.
    rewrite allBytes_app, allBytes_app.
    unfold url.QueryEscape. now rewrite escape_urlBytes.
  - intros c. destruct c as [[] [] [] [] [] [] [] []]; vm_compute;
      first [discriminate | intros _; split; reflexivity].
Qed.

(** ** [searchPrompt] *)

Lemma readUntil_total (delim : ascii) (acc : string) (blocks : list string) :
  exists line err rest, bufio.readUntil delim acc blocks = (line, err, rest).
Proof. destruct (bufio.readUntil delim acc blocks) as [[line err] rest]; eauto. Qed.

(** X4: [searchPrompt] always returns, having written the prompt and
    nothing else and having issued no request.  It returns an error exactly
    with the empty string; a query returned without error is not blank and
    ends with the newline that was read. *)
Theorem searchPrompt_result (w : World) :
  exists query err w',
    searchPrompt w = ([Stdout prompt], w', Done (query, err))
    /\ requests w' = requests w
    /\ (err = None ->
        strings.TrimSpace query <> "" /\ exists body, query = body +:+ nl)
    /\ (err <> None -> query = "").
Proof.
  destruct (readUntil_total LF "" (stdin w)) as (line & err & rest & Hread).
  pose proof (searchPrompt_run w line err rest Hread) as Hrun.
  destruct err as [e|].
  - exists "", (Some e), (afterRead w rest).
    split; [exact Hrun|]. split; [reflexivity|]. split; [discriminate | reflexivity].
  - destruct (String.eqb (strings.TrimSpace line) "") eqn:E.
    + exists "", (Some invalidInput), (afterRead w rest).
      split; [exact Hrun|]. split; [reflexivity|].
      split; [discriminate | reflexivity].
    + exists line, None, (afterRead w rest).
      split; [exact Hrun|]. split; [reflexivity|]. split; [|congruence].
      intros _. split; [now apply String.eqb_neq|].
      exact (readUntil_delim _ _ _ _ _ Hread).
Qed.

(** ** [processAPIRequest] *)

(** The outline of every run of [processAPIRequest]. *)
Lemma processAPIRequest_outline
  (network : nat -> string -> Body + error)
  (json_Unmarshal : string -> Response -> Response * option error)
  (query : string) (options : Options) (w : World) :
  let run := processAPIRequest network json_Unmarshal query options w in
  gets run.1.1 = [getAPIURL query options]
  /\ run.1.2 = afterGet w
  /\ (run.2 = Done tt \/ exists e, run.2 = Panicked e).
Proof.
  cbv zeta. rewrite processAPIRequest_run. cbv zeta.
  destruct (network _ _) as [response|e]; [|cbn; eauto].
  destruct (readError response) as [e|]; [cbn; eauto|].
  destruct (json_Unmarshal _ _) as [parsed [e|]]; [cbn; eauto|].
  cbn [fst snd]. split; [|split; [reflexivity | now left]].
  now rewrite gets_app, (gets_stdout _ (rendering_stdout parsed)).
Qed.

(** X5: [processAPIRequest] issues exactly one request, for the URL of its
    query, whatever happens afterwards; it never reads standard input and
    never exits the process: it returns or panics. *)
Theorem processAPIRequest_one_request
  (network : nat -> string -> Body + error)
  (json_Unmarshal : string -> Response -> Response * option error)
  (query : string) (options : Options) (w : World) :
  let run := processAPIRequest network json_Unmarshal query options w in
  gets run.1.1 = [getAPIURL query options]
  /\ stdin run.1.2 = stdin w
  /\ requests run.1.2 = S (requests w)
  /\ (run.2 = Done tt \/ exists e, run.2 = Panicked e).
Proof.
  cbv zeta.
  destruct (processAPIRequest_outline network json_Unmarshal query options w)
    as (Hg & Hw & Hr).
  rewrite Hw. cbn [afterGet stdin requests]. auto.
Qed.

(** X6: when the request fails in transport, the pipeline panics with the
    error of [http.Get] right after the request: no body is read or closed
    and nothing is written. *)
Theorem transport_error_aborts
  (network : nat -> string -> Body + error)
  (json_Unmarshal : string -> Response -> Response * option error)
  (query : string) (options : Options) (w : World) (e : error) :
  network (requests w) (getAPIURL query options) = inr e ->
  processAPIRequest network json_Unmarshal query options w
  = ([Get (getAPIURL query options)], afterGet w, Panicked e).
Proof.
  intros H. rewrite processAPIRequest_run. cbv zeta. now rewrite H.
Qed.

Lemma transport_error_aborts_witness :
  processAPIRequest (unreachable (SysError "no such host")) json.Unmarshal
    "go" queryOptions idle
  = ([Get (getAPIURL "go" queryOptions)], afterGet idle,
     Panicked (SysError "no such host")).
Proof.
  exact (transport_error_aborts (unreachable (SysError "no such host"))
           json.Unmarshal "go" queryOptions idle (SysError "no such host")
           eq_refl).
Defined.

(** ** The interactive loop of [main] *)

(** One turn, for each result of the read. *)
Lemma iteration_run
  (network : nat -> string -> Body + error)
  (json_Unmarshal : string -> Response -> Response * option error)
  (w : World) (line : string) (err : option error) (rest : list string) :
  bufio.readUntil LF "" (stdin w) = (line, err, rest) ->
  iteration network json_Unmarshal w =
  match err with
  | Some e =>
      ([Stdout prompt; Stdout (Error e +:+ nl)], afterRead w rest, Done tt)
  | None =>
      if String.eqb (strings.TrimSpace line) "" then
        ([Stdout prompt; Stdout ("Invalid input" +:+ nl)], afterRead w rest,
         Done tt)
      else
        let '(t, w', r) :=
          processAPIRequest network json_Unmarshal line queryOptions
                            (afterRead w rest) in
        (Stdout prompt :: t, w', r)
  end.
Proof.
  intros Hread. unfold iteration, bind.
  rewrite (searchPrompt_run w line err rest Hread).
  destruct err as [e|]; [reflexivity|].
  destruct (String.eqb (strings.TrimSpace line) ""); [reflexivity|].
  now destruct (processAPIRequest _ _ _ _ _) as [[t w'] r].
Qed.

(** X7: in interactive mode the query is sent with the newline the user
    typed: for a line that is not blank, the one request of the turn is for
    the URL of the whole line, and the [q] field of that URL is the escaped
    text of the line followed by [%0A]. *)
Theorem interactive_query_ends_with_newline
  (network : nat -> string -> Body + error)
  (json_Unmarshal : string -> Response -> Response * option error)
  (w : World) (line : string) (rest : list string) :
  bufio.readUntil LF "" (stdin w) = (line, None, rest) ->
  strings.TrimSpace line <> "" ->
  exists body,
    line = body +:+ nl
    /\ gets (trace (iteration network json_Unmarshal) w)
       = [getAPIURL line queryOptions]
    /\ url.rawParam "q" (getAPIURL line queryOptions)
       = Some (url.QueryEscape body +:+ "%0A").
Proof.
  intros Hread Hline.
  destruct (readUntil_delim _ _ _ _ _ Hread) as [body Hbody].
  exists body. split; [exact Hbody|]. split.
  - unfold trace. rewrite (iteration_run _ _ _ _ _ _ Hread).
    apply String.eqb_neq in Hline. rewrite Hline.
    pose proof (processAPIRequest_outline network json_Unmarshal line
                  queryOptions (afterRead w rest)) as H.
    cbv zeta in H. destruct H as [H _].
    destruct (processAPIRequest _ _ _ _ _) as [[t w'] r]. exact H.
  - rewrite rawParam_q, Hbody. unfold url.QueryEscape.
    rewrite escape_app. reflexivity.
Qed.

Lemma interactive_query_ends_with_newline_witness :
  exists body,
    "go lang" +:+ nl = body +:+ nl
    /\ gets (trace (iteration (serving helloBody) json.Unmarshal)
               (typing ("go lang" +:+ nl)))
       = [getAPIURL ("go lang" +:+ nl) queryOptions]
    /\ url.rawParam "q" (getAPIURL ("go lang" +:+ nl) queryOptions)
       = Some (url.QueryEscape body +:+ "%0A").
Proof.
  apply (interactive_query_ends_with_newline (serving helloBody) json.Unmarshal
           (typing ("go lang" +:+ nl)) ("go lang" +:+ nl) []).
  - reflexivity.
  - vm_compute. discriminate.
Defined.

(** X8: a failed request ends the interactive session: when the line read
    is not blank and the request for it fails in transport, the loop stops
    with the panic of that turn, however many turns were to follow; no
    further prompt is written. *)
Theorem transport_error_ends_session
  (network : nat -> string -> Body + error)
  (json_Unmarshal : string -> Response -> Response * option error)
  (w : World) (line : string) (rest : list string) (e : error) (n : nat) :
  bufio.readUntil LF "" (stdin w) = (line, None, rest) ->
  strings.TrimSpace line <> "" ->
  network (requests w) (getAPIURL line queryOptions) = inr e ->
  interactive network json_Unmarshal (S n) w
  = ([Stdout prompt; Get (getAPIURL line queryOptions)],
     afterGet (afterRead w rest), Panicked e).
Proof.
  intros Hread Hline Hnet. cbn [interactive]. unfold bind at 1.
  rewrite (iteration_run _ _ _ _ _ _ Hread).
  apply String.eqb_neq in Hline. rewrite Hline.
  rewrite processAPIRequest_run. cbv zeta.
  cbn [afterRead requests]. now rewrite Hnet.
Qed.

Lemma transport_error_ends_session_witness :
  interactive (unreachable (SysError "no such host")) json.Unmarshal 3
    {| stdin := ["go" +:+ nl; "rust" +:+ nl]; requests := 0 |}
  = ([Stdout prompt; Get (getAPIURL ("go" +:+ nl) queryOptions)],
     {| stdin := ["rust" +:+ nl]; requests := 1 |},
     Panicked (SysError "no such host")).
Proof.
  apply (transport_error_ends_session (unreachable (SysError "no such host"))
           json.Unmarshal
           {| stdin := ["go" +:+ nl; "rust" +:+ nl]; requests := 0 |}
           ("go" +:+ nl) ["rust" +:+ nl] (SysError "no such host") 2).
  - reflexivity.
  - vm_compute. discriminate.
  - reflexivity.
Defined.

(** One turn issues at most one request and never exits. *)
Lemma iteration_step
  (network : nat -> string -> Body + error)
  (json_Unmarshal : string -> Response -> Response * option error)
  (w : World) :
  let run := iteration network json_Unmarshal w in
  (length (gets run.1.1) + requests w = requests run.1.2)%nat
  /\ (length (gets run.1.1) <= 1)%nat
  /\ (run.2 = Done tt \/ exists e, run.2 = Panicked e).
Proof.
  cbv zeta.
  destruct (readUntil_total LF "" (stdin w)) as (line & err & rest & Hread).
  rewrite (iteration_run _ _ _ _ _ _ Hread).
  destruct err as [e|]; [cbn; auto|].
  destruct (String.eqb (strings.TrimSpace line) ""); [cbn; auto|].
  pose proof (processAPIRequest_outline network json_Unmarshal line
                queryOptions (afterRead w rest)) as H.
  cbv zeta in H. destruct H as (Hg & Hw & Hr).
  destruct (processAPIRequest _ _ _ _ _) as [[t w'] r].
  cbn [fst snd] in *. subst w'.
  change (gets (Stdout prompt :: t)) with (gets t). rewrite Hg.
  cbn. auto.
Qed.

(** X9: the interactive loop never calls [os.Exit] and issues at most one
    request per prompt: after any number of turns the requests in the trace
    are as many as the count of requests has grown, no more than the turns
    run, and the loop is still running or has panicked. *)
Theorem interactive_requests
  (network : nat -> string -> Body + error)
  (json_Unmarshal : string -> Response -> Response * option error)
  (n : nat) (w : World) :
  let run := interactive network json_Unmarshal n w in
  (length (gets run.1.1) + requests w = requests run.1.2)%nat
  /\ (length (gets run.1.1) <= n)%nat
  /\ (run.2 = Done tt \/ exists e, run.2 = Panicked e).
Proof.
  cbv zeta. revert w. induction n as [|n IH]; intros w; [cbn; auto|].
  cbn [interactive]. unfold bind.
  pose proof (iteration_step network json_Unmarshal w) as H.
  cbv zeta in H. destruct H as (Hc & Hle & Hr).
  destruct (iteration network json_Unmarshal w) as [[t1 w1] r1].
  cbn [fst snd] in *.
  destruct r1 as [[]|e|c].
  - specialize (IH w1). destruct IH as (Hc2 & Hle2 & Hr2).
    destruct (interactive network json_Unmarshal n w1) as [[t2 w2] r2].
    cbn [fst snd] in *. rewrite gets_app, length_app.
    split; [lia|]. split; [lia | exact Hr2].
  - cbn [fst snd]. split; [exact Hc|]. split; [lia | eauto].
  - destruct Hr as [Hr | [e Hr]]; discriminate.
Qed.

(** X10: at end of input the loop does not stop: every turn writes the
    prompt and [EOF], issues no request and leaves the world as it was. *)
Theorem interactive_at_end_of_input
  (network : nat -> string -> Body + error)
  (json_Unmarshal : string -> Response -> Response * option error)
  (n count : nat) :
  interactive network json_Unmarshal n {| stdin := []; requests := count |}
  = (concat (repeat eofTurn n), {| stdin := []; requests := count |}, Done tt).
Proof.
  induction n as [|n IH]; [reflexivity|].
  cbn [interactive]. unfold bind at 1.
  rewrite (iteration_run _ _ _ "" (Some EOF) []) by reflexivity.
  unfold afterRead. cbn [requests]. rewrite IH. reflexivity.
Qed.

(** ** [responseToString]: the edges *)


Lemma Cut_notin (sep : ascii) (s : string) :
  mem sep s = false -> strings.Cut sep s = (s, None).
Proof.
  intros H. pose proof (Cut_app_notin sep s "" H) as HC.
  cbn [strings.Cut fst snd] in HC. now rewrite !append_nil_r in HC.
Qed.

Lemma lines_single (s : string) :
  mem LF s = false -> lines s = match s with EmptyString => [] | _ => [s] end.
Proof. intros H. now rewrite lines_Cut, (Cut_notin LF s H). Qed.



(** X12: a body of one short line that holds no newline and does not end
    with a carriage return is handed on byte for byte, and the body is
    closed. *)
Theorem body_without_newline_is_kept (response : Body) (w : World) :
  mem LF (content response) = false ->
  (forall l, content response <> l +:+ String CR "") ->
  len (content response) < bufio.MaxScanTokenSize ->
  failure response = None ->
  responseToString response w = ([Close], w, Done (content response)).
Proof.
  intros Hlf Hcr Hlen Hfail. rewrite responseToString_run.
  unfold readError, textOf. rewrite (lines_single _ Hlf), Hfail.
  destruct (content response) as [|c t] eqn:E; [reflexivity|].
  cbn [forallb map foldr]. unfold short.
  replace (len (String c t) <? bufio.MaxScanTokenSize) with true
    by (symmetry; apply Z.ltb_lt; exact Hlen).
  cbn [andb]. rewrite append_nil_r.
  destruct (dropCR_prefix (String c t)) as [-> | H]; [reflexivity|].
  now apply Hcr in H.
Qed.

Lemma body_without_newline_is_kept_witness :
  responseToString (whole "{}") idle = ([Close], idle, Done "{}").
Proof.
  apply (body_without_newline_is_kept (whole "{}") idle).
  - reflexivity.
  - intros [|a [|b [|c l]]]; discriminate.
  - reflexivity.
  - reflexivity.
Defined.

(** ** [printResponse]: it always succeeds *)

Lemma length_topicLines (topics : list RelatedTopic) :
  length (flat_map topicLines topics) = (2 * length topics)%nat.
Proof.
  induction topics as [|t ts IH]; [reflexivity|].
  cbn [flat_map topicLines app length]. rewrite IH. lia.
Qed.

(** X13: [printResponse] never panics, whatever the response holds: no
    index is out of range.  It returns with the world as it was, writes to
    standard output only, and the number of its writes is three, two more
    with an abstract URL, and two for each related topic. *)
Theorem printResponse_always_returns (input : Response) (w : World) :
  exists t,
    printResponse input w = (t, w, Done tt)
    /\ forallb isStdout t = true
    /\ length t
       = (3 + (if String.eqb (AbstractURL input) "" then 0 else 2)
          + 2 * length (RelatedTopics input))%nat.
Proof.
  exists (rendering input). split; [apply printResponse_trace|].
  split; [apply rendering_stdout|].
  unfold rendering, infoSection. rewrite !length_app, length_topicLines.
  destruct (String.eqb (AbstractURL input) ""); cbn [length]; lia.
Qed.

(** ** The earlier version *)

Lemma legacy_printResponse_trace (input : Legacy.Response) (w : World) :
  Legacy.printResponse input w = (legacyRendering input, w, Done tt).
Proof.
  pose proof (forRange_topics [] (Legacy.RelatedTopics input) w) as Hloop.
  cbn [length app] in Hloop.
  assert (Habs : fmt.Sprintf (nl +:+ " %s " +:+ nl +:+ " " +:+ nl)
                   [fmt.ArgS (Legacy.AbstractText input)]
                 = nl +:+ " " +:+ Legacy.AbstractText input +:+ " " +:+ nl
                   +:+ " " +:+ nl).
  { cbn. rewrite ?append_assoc; reflexivity. }
  unfold Legacy.printResponse, Printf. rewrite Habs.
  set (loop := forRange _ _) in *.
  unfold bind. cbn [emit]. rewrite Println2, Hloop, colour_Green.
  unfold legacyRendering, legacyHeader. cbn [app].
  rewrite ?append_assoc; reflexivity.
Qed.

(** X14: the earlier [printResponse] writes the abstract, the header
    [More info: ] and then, for each related topic in order, its URL line
    and its text line.  It never writes the colour reset code, nor the
    header [Related topics: ], nor a line for the abstract URL. *)
Theorem legacy_printResponse_output (input : Legacy.Response) (w : World) :
  Legacy.printResponse input w = (legacyRendering input, w, Done tt)
  /\ ~ In (Stdout reset) (legacyRendering input)
  /\ ~ In (Stdout relatedHeader) (legacyRendering input)
  /\ length (legacyRendering input)
     = (2 + 2 * length (Legacy.RelatedTopics input))%nat.
Proof.
  split; [apply legacy_printResponse_trace|].
  unfold legacyRendering. repeat split.
  - cbn [app]. intros [H | [H | H]]; try discriminate.
    revert H. apply header_not_topic; intros t; discriminate.
  - cbn [app]. intros [H | [H | H]]; try discriminate.
    revert H. apply header_not_topic; intros t; discriminate.
  - rewrite length_app, length_topicLines. reflexivity.
Qed.

Lemma legacy_searchPrompt_run (w : World) (line : string) (err : option error)
      (rest : list string) :
  bufio.readUntil LF "" (stdin w) = (line, err, rest) ->
  Legacy.searchPrompt w = ([Stdout prompt], afterRead w rest, Done line).
Proof.
  intros H. unfold Legacy.searchPrompt, bind, Print, emit, bufio.ReadString.
  rewrite H. reflexivity.
Qed.

(** One turn of the earlier loop, stage by stage. *)
Lemma legacy_iteration_run
  (network : nat -> string -> Body + error)
  (json_Unmarshal : string -> Legacy.Response -> Legacy.Response * option error)
  (w : World) (line : string) (err : option error) (rest : list string) :
  bufio.readUntil LF "" (stdin w) = (line, err, rest) ->
  Legacy.iteration network json_Unmarshal w =
  let queryURL := getAPIURL line queryOptions in
  let w' := afterGet (afterRead w rest) in
  match network (requests w) queryURL with
  | inr e => ([Stdout prompt; Get queryURL], w', Panicked e)
  | inl response =>
      match readError response with
      | Some e => ([Stdout prompt; Get queryURL], w', Panicked e)
      | None =>
          match json_Unmarshal (textOf response) legacyZero with
          | (_, Some e) => ([Stdout prompt; Get queryURL; Close], w', Panicked e)
          | (parsed, None) =>
              ([Stdout prompt; Get queryURL; Close] ++ legacyRendering parsed,
               w', Done tt)
          end
      end
  end.
Proof.
  intros Hread. cbv zeta. unfold Legacy.iteration.
  unfold bind at 1. rewrite (legacy_searchPrompt_run w line err rest Hread).
  unfold queryAPI. unfold bind at 1. unfold bind at 1. unfold http_Get.
  cbn [stdin requests afterRead]. fold (afterGet (afterRead w rest)).
  destruct (network (requests w) (getAPIURL line queryOptions))
    as [response|e]; [|reflexivity].
  cbn [ret]. unfold bind at 1. rewrite responseToString_run.
  destruct (readError response) as [e|]; [reflexivity|].
  unfold bind at 1. unfold Legacy.unmarshalResponse. fold legacyZero.
  destruct (json_Unmarshal (textOf response) legacyZero) as [parsed [e|]];
    [reflexivity|].
  cbn [ret]. now rewrite legacy_printResponse_trace.
Qed.

Lemma legacyRendering_stdout (input : Legacy.Response) :
  forallb isStdout (legacyRendering input) = true.
Proof.
  unfold legacyRendering. rewrite forallb_app. cbn [forallb isStdout andb].
  induction (Legacy.RelatedTopics input) as [|t ts IH]; [reflexivity | exact IH].
Qed.

Lemma legacy_iteration_gets
  (network : nat -> string -> Body + error)
  (json_Unmarshal : string -> Legacy.Response -> Legacy.Response * option error)
  (w : World) (line : string) (err : option error) (rest : list string) :
  bufio.readUntil LF "" (stdin w) = (line, err, rest) ->
  gets (trace (Legacy.iteration network json_Unmarshal) w)
    = [getAPIURL line queryOptions]
  /\ (Legacy.iteration network json_Unmarshal w).1.2
     = afterGet (afterRead w rest).
Proof.
  intros Hread.
  unfold trace. rewrite (legacy_iteration_run _ _ _ _ _ _ Hread). cbv zeta.
  destruct (network _ _) as [response|e]; [|split; reflexivity].
  destruct (readError response) as [e|]; [split; reflexivity|].
  destruct (json_Unmarshal _ _) as [parsed [e|]]; [split; reflexivity|].
  cbn [fst snd]. split; [|reflexivity].
  now rewrite gets_app, (gets_stdout _ (legacyRendering_stdout parsed)).
Qed.

(** X15: the earlier version tests nothing it reads: every turn of its loop
    issues exactly one request, for the URL of whatever [ReadString]
    returned; that holds for a blank line, and at end of input, where the
    request is for what was read so far (the empty query when nothing
    was). *)
Theorem legacy_turn_always_requests
  (network : nat -> string -> Body + error)
  (json_Unmarshal : string -> Legacy.Response -> Legacy.Response * option error)
  (w : World) :
  exists line err rest,
    bufio.readUntil LF "" (stdin w) = (line, err, rest)
    /\ gets (trace (Legacy.iteration network json_Unmarshal) w)
       = [getAPIURL line queryOptions]
    /\ (Legacy.iteration network json_Unmarshal w).1.2
       = afterGet (afterRead w rest).
Proof.
  destruct (readUntil_total LF "" (stdin w)) as (line & err & rest & Hread).
  exists line, err, rest. split; [exact Hread|].
  exact (legacy_iteration_gets _ _ _ _ _ _ Hread).
Qed.

(** X16: for a line that is not blank, the two versions of the program
    issue the same request; the later version differs for blank lines and at
    end of input only, where it issues none. *)
Theorem versions_agree_on_requests
  (network : nat -> string -> Body + error)
  (json_Unmarshal : string -> Response -> Response * option error)
  (legacy_Unmarshal : string -> Legacy.Response -> Legacy.Response * option error)
  (w : World) (line : string) (err : option error) (rest : list string) :
  bufio.readUntil LF "" (stdin w) = (line, err, rest) ->
  gets (trace (Legacy.iteration network legacy_Unmarshal) w)
    = [getAPIURL line queryOptions]
  /\ gets (trace (iteration network json_Unmarshal) w)
     = (if match err with Some _ => true | None => false end
           || String.eqb (strings.TrimSpace line) ""
        then [] else [getAPIURL line queryOptions]).
Proof.
  intros Hread. split.
  - exact (proj1 (legacy_iteration_gets _ _ _ _ _ _ Hread)).
  - unfold trace. rewrite (iteration_run _ _ _ _ _ _ Hread).
    destruct err as [e|]; [reflexivity|]. cbn [orb].
    destruct (String.eqb (strings.TrimSpace line) ""); [reflexivity|].
    pose proof (processAPIRequest_outline network json_Unmarshal line
                  queryOptions (afterRead w rest)) as H.
    cbv zeta in H. destruct H as [H _].
    destruct (processAPIRequest _ _ _ _ _) as [[t w'] r]. exact H.
Qed.

Lemma versions_agree_on_requests_witness :
  gets (trace (Legacy.iteration (serving helloBody) echoDecoder)
          (typing (" " +:+ nl)))
    = [getAPIURL (" " +:+ nl) queryOptions]
  /\ gets (trace (iteration (serving helloBody) json.Unmarshal)
             (typing (" " +:+ nl)))
     = [].
Proof.
  exact (versions_agree_on_requests (serving helloBody) json.Unmarshal
           echoDecoder (typing (" " +:+ nl)) (" " +:+ nl) None [] eq_refl).
Defined.

(** The earlier version at end of input: a request for the empty query. *)
Example legacy_at_end_of_input :
  gets (trace (Legacy.iteration (serving helloBody) echoDecoder) idle)
  = ["https://api.duckduckgo.com/?q=&format=json&pretty=1&no_redirect=1&no_html=1&skip_disambig=1&t=duckduckgo-answers"].
Proof. vm_compute. reflexivity. Qed.

(** ** [main]: the modes without a prompt *)

Lemma prompt_not_rendered (input : Response) :
  ~ In (Stdout prompt) (rendering input).
Proof.
  unfold rendering, infoSection. intros H.
  apply in_app_or in H as [[H | []] | H]; [discriminate|].
  apply in_app_or in H as [H | H].
  - destruct (String.eqb (AbstractURL input) "");
      [contradiction | destruct H as [H | [H | []]]; discriminate].
  - apply in_app_or in H as [[H | []] | H]; [discriminate|].
    apply in_app_or in H as [H | [H | []]]; [|discriminate].
    revert H. apply header_not_topic; intros t; discriminate.
Qed.

(** X17: with the help flag or with a search flag that is not empty, the
    program never prompts and never reads standard input, and it does not
    return: it exits or panics before the interactive loop. *)
Theorem flags_skip_the_prompt
  (network : nat -> string -> Body + error)
  (json_Unmarshal : string -> Response -> Response * option error)
  (flags : Flags) (n : nat) (w : World) :
  flagHelp flags = true \/ flagSearch flags <> "" ->
  let run := main network json_Unmarshal flags n w in
  ~ In (Stdout prompt) run.1.1
  /\ stdin run.1.2 = stdin w
  /\ run.2 <> Done tt.
Proof.
  intros Hflags. cbv zeta. unfold main.
  destruct (flagHelp flags) eqn:Hh.
  { cbn. repeat split; [intros [H | []]; discriminate | discriminate]. }
  destruct Hflags as [? | Hs]; [discriminate|].
  apply String.eqb_neq in Hs. rewrite Hs. cbn [negb].
  unfold bind. rewrite processAPIRequest_run. cbv zeta.
  destruct (network _ _) as [response|e].
  2:{ cbn. repeat split; [intros [H | []]; discriminate | discriminate]. }
  destruct (readError response) as [e|].
  { cbn. repeat split; [intros [H | []]; discriminate | discriminate]. }
  destruct (json_Unmarshal _ _) as [parsed [e|]].
  { cbn. repeat split; [intros [H | [H | []]]; discriminate | discriminate]. }
  unfold os.Exit. cbn [fst snd]. rewrite app_nil_r.
  repeat split; [|discriminate].
  cbn [app]. intros [H | [H | H]]; try discriminate.
  now apply prompt_not_rendered in H.
Qed.

Lemma flags_skip_the_prompt_witness :
  ~ In (Stdout prompt)
      (main (serving helloBody) json.Unmarshal (oneShot "hello") 5
         (typing ("ignored" +:+ nl))).1.1
  /\ stdin (main (serving helloBody) json.Unmarshal (oneShot "hello") 5
             (typing ("ignored" +:+ nl))).1.2
     = ["ignored" +:+ nl]
  /\ (main (serving helloBody) json.Unmarshal (oneShot "hello") 5
        (typing ("ignored" +:+ nl))).2 <> Done tt.
Proof.
  apply (flags_skip_the_prompt (serving helloBody) json.Unmarshal
           (oneShot "hello") 5 (typing ("ignored" +:+ nl))).
  right. discriminate.
Defined.
